(** * UWDataset: index construction, oversampling and item retrieval

    A shallow embedding of [utils/UW_dataset.py] (class [UWDataset]) and the
    properties of its index construction ([__init__]), its length query
    ([__len__]) and its random access ([__getitem__]).

    Conventions of the embedding.
    - Python exceptions are values of [exn]; a fallible computation returns
      [result A = exn + A].
    - The file system ([glob], [pd.read_csv]), the random generator behind
      [random.shuffle] and the image pipeline ([cv2.imread], the
      albumentations transforms, [torch.stack]) are external to the class:
      they are parameters of the definitions.
    - A data frame is taken as parsed: every row carries its [annotation],
      [id_rov] and [img_id] cells and a value for every column name. *)

From Stdlib Require Import List String Ascii ZArith Lia Bool Arith.
From Stdlib Require Import Permutation Sorted Orders Mergesort DecimalString.
From Stdlib Require DecimalPos DecimalN.
Import ListNotations.
Local Open Scope string_scope.
Local Open Scope list_scope.

(** ** Exceptions and the error monad *)

Inductive exn : Type :=
| SystemExit            (* [exit()] after the annotation-file message is printed *)
| ValueError_max        (* max() arg is an empty sequence *)
| ValueError_index      (* list.index(x): x not in list *)
| ZeroDivisionError     (* integer division or modulo by zero *)
| IndexError            (* list index out of range *)
| TypeError             (* 'NoneType' object is not subscriptable *)
| RuntimeError.         (* torch.stack expects a non-empty TensorList *)

Definition result (A : Type) : Type := (exn + A)%type.

Definition raise {A : Type} (e : exn) : result A := inl e.
Definition ret {A : Type} (a : A) : result A := inr a.
Definition bind {A B : Type} (m : result A) (k : A -> result B) : result B :=
  match m with
  | inl e => inl e
  | inr a => k a
  end.

Notation "x <- m ;; k" := (bind m (fun x => k))
  (at level 61, m at next level, right associativity).

Definition EmptySplitError (e : exn) : Prop := e = ValueError_max \/ e = IndexError.
Definition LabelNotFoundError (e : exn) : Prop := e = ValueError_index.
Definition ImageDecodeError (e : exn) : Prop := e = TypeError \/ e = RuntimeError.

(** ** Strings: [os.path.join] and the [02d]/[04d] format *)

Definition startswith_sep (s : string) : bool :=
  match s with
  | String c _ => Ascii.eqb c "/"%char
  | EmptyString => false
  end.

Fixpoint endswith_sep (s : string) : bool :=
  match s with
  | EmptyString => false
  | String c EmptyString => Ascii.eqb c "/"%char
  | String _ s' => endswith_sep s'
  end.

(** [os.path.join(a, b)] of posixpath, for two components. *)
Definition join (a b : string) : string :=
  if startswith_sep b then b
  else if (String.length a =? 0)%nat || endswith_sep a then a ++ b
  else a ++ "/" ++ b.

Fixpoint zeros (n : nat) : string :=
  match n with
  | O => ""
  | S n' => String "0"%char (zeros n')
  end.

Definition digits (z : Z) : string :=
  NilEmpty.string_of_uint (N.to_uint (Z.abs_N z)).

(** [f"{z:0<w>d}"]: the sign comes first, zeros fill up to width [w]. *)
Definition format_0d (w : nat) (z : Z) : string :=
  let sign := if (z <? 0)%Z then "-" else "" in
  let ds := digits z in
  sign ++ zeros (w - String.length sign - String.length ds) ++ ds.

(** ** Data model *)

(** One row of [df.iterrows()]. [cell c] is [row[c]].  The row is taken as
    pandas delivers it on a well-formed table: a missing column
    ([KeyError]) or an identifier that is not an integer ([ValueError] of
    the format) is outside this type, so the properties below speak of
    constructions that return, or of failures that come before any table
    is used. *)
Record Row : Type := mkRow {
  annotation : string;
  id_rov : Z;
  img_id : Z;
  cell : string -> Z
}.

(** The dictionaries appended to [annot[label]]. *)
Record annot_dict : Type := mkAnnot {
  image_root : string;
  root_one_hot : list Z
}.

(** ['image_path'] is a string in train mode and a list in test mode. *)
Inductive image_path_t : Type :=
| Single (path : string)
| Frames (paths : list string).

(** The dictionaries appended to [self.annotations]. *)
Record annotation_t : Type := mkAnnotation {
  image_path : image_path_t;
  label : string;
  one_hot : list Z
}.

(** The two [A.Compose] pipelines of the constructor. *)
Inductive pipeline : Type :=
| TrainAugment
| TestResize.

Record UWDataset : Type := mkUWDataset {
  annotations : list annotation_t;
  transforms : pipeline;
  train : bool;
  list_classes : list string
}.

(** The file system seen by the constructor. *)
Record FileSystem : Type := mkFS {
  glob : string -> list string;
  read_csv : string -> list Row
}.

(** The local [annot]: a dict in insertion order. *)
Definition annot_t : Type := list (string * list annot_dict).

(** ** [sorted] on strings *)

Module StringOrder <: TotalLeBool.
Definition t := string.
Definition leb := String.leb.
Definition leb_total : forall a1 a2, leb a1 a2 = true \/ leb a2 a1 = true :=
  String.leb_total.
End StringOrder.

Module StringSort := Sort StringOrder.

Definition sorted (l : list string) : list string := StringSort.sort l.

(** ** Construction: reading the annotation files (lines 39-63) *)

(** [annot[label].append(d)], creating the key at the end when missing. *)
Fixpoint annot_append (annot : annot_t) (lbl : string) (d : annot_dict) : annot_t :=
  match annot with
  | [] => [(lbl, [d])]
  | (k, l) :: rest =>
      if String.eqb k lbl then (k, l ++ [d]) :: rest
      else (k, l) :: annot_append rest lbl d
  end.

Definition row_dict (split : string) (classes : list string) (row : Row) : annot_dict :=
  {| image_root := join split (format_0d 2 (id_rov row) ++ "_" ++ format_0d 4 (img_id row));
     root_one_hot := map (cell row) classes |}.

Definition add_row (split : string) (classes : list string)
  (annot : annot_t) (row : Row) : annot_t :=
  annot_append annot (annotation row) (row_dict split classes row).

(** The [try]/[except]/[exit()] of lines 46-53, then [annotation_files[0]]. *)
Definition annotation_file (fs : FileSystem) (split : string) : result string :=
  let annotation_files := glob fs (join split "*.ods") in
  if (1 <? List.length annotation_files)%nat then raise SystemExit
  else match annotation_files with
       | [] => raise SystemExit
       | f :: _ => ret f
       end.

Fixpoint read_splits (fs : FileSystem) (classes : list string)
  (split_list : list string) (annot : annot_t) : result annot_t :=
  match split_list with
  | [] => ret annot
  | split :: rest =>
      f <- annotation_file fs split ;;
      read_splits fs classes rest
        (fold_left (add_row split classes) (read_csv fs f) annot)
  end.

(** ** Construction: the two index loops (lines 65-112) *)

(** [sorted(glob(annot_dict['image_root'] + "*"))] *)
Definition same_annot (fs : FileSystem) (d : annot_dict) : list string :=
  sorted (glob fs (image_root d ++ "*")).

(** The innermost loop of lines 77-80 and 84-87. *)
Definition train_records (fs : FileSystem) (lbl : string) (d : annot_dict)
  : list annotation_t :=
  map (fun path => {| image_path := Single path; label := lbl;
                      one_hot := root_one_hot d |})
      (same_annot fs d).

(** The dictionary of lines 110-112. *)
Definition test_record (fs : FileSystem) (lbl : string) (d : annot_dict)
  : annotation_t :=
  {| image_path := Frames (same_annot fs d); label := lbl;
     one_hot := root_one_hot d |}.

Definition py_max (l : list nat) : result nat :=
  match l with
  | [] => raise ValueError_max
  | x :: r => ret (fold_left Nat.max r x)
  end.

Definition py_floordiv (a b : nat) : result nat :=
  if (b =? 0)%nat then raise ZeroDivisionError else ret (a / b)%nat.

Definition py_mod (a b : nat) : result nat :=
  if (b =? 0)%nat then raise ZeroDivisionError else ret (a mod b)%nat.

(** Lines 71-87 for one (already shuffled) [annot_list]. *)
Definition oversample_group (fs : FileSystem) (max_repeats : nat)
  (lbl : string) (annot_list : list annot_dict) : result (list annotation_t) :=
  rep <- py_floordiv max_repeats (List.length annot_list) ;;
  rem <- py_mod max_repeats (List.length annot_list) ;;
  ret (flat_map (fun _ : nat => flat_map (train_records fs lbl) annot_list)
                (seq 0 rep)
       ++ flat_map (train_records fs lbl) (firstn rem annot_list)).

(** Lines 108-112. *)
Definition test_annotations (fs : FileSystem) (annot : annot_t)
  : list annotation_t :=
  flat_map (fun kv => map (test_record fs (fst kv)) (snd kv)) annot.

(** Line 123: [self.annotations[0]['image_path']] decides the frame count. *)
Definition frames_per_annotation (anns : list annotation_t) : result nat :=
  match anns with
  | [] => raise IndexError
  | a :: _ =>
      match image_path a with
      | Frames ps => ret (List.length ps)
      | Single _ => ret 1%nat
      end
  end.

(** Line 125: [len([x for x in self.annotations if x['label'] == label])]. *)
Definition count_label (lbl : string) (anns : list annotation_t) : nat :=
  List.length (filter (fun x => String.eqb (label x) lbl) anns).

Section Construction.

(** The state of the [random] module and [random.shuffle] on it. *)
Variable rng : Type.
Variable shuffle : rng -> list annot_dict -> list annot_dict * rng.

(** Lines 69-87: the groups in dict order, each shuffled in turn. *)
Fixpoint oversample (fs : FileSystem) (max_repeats : nat)
  (annot : annot_t) (g : rng) : result (list annotation_t * rng) :=
  match annot with
  | [] => ret ([], g)
  | (lbl, annot_list) :: rest =>
      let (shuffled, g1) := shuffle g annot_list in
      recs <- oversample_group fs max_repeats lbl shuffled ;;
      more <- oversample fs max_repeats rest g1 ;;
      ret (recs ++ fst more, snd more)
  end.

Definition build_annotations (fs : FileSystem) (is_train : bool)
  (annot : annot_t) (g : rng) : result (list annotation_t * rng) :=
  if is_train then
    max_repeats <- py_max (map (fun kv => List.length (snd kv)) annot) ;;
    oversample fs max_repeats annot g
  else ret (test_annotations fs annot, g).

(** [UWDataset.__init__]: the object and the generator state it leaves. *)
Definition __init__ (fs : FileSystem) (split_list : list string)
  (classes : list string) (is_train : bool) (g : rng)
  : result (UWDataset * rng) :=
  annot <- read_splits fs classes split_list [] ;;
  built <- build_annotations fs is_train annot g ;;
  _ <- frames_per_annotation (fst built) ;;
  ret ({| annotations := fst built;
          transforms := if is_train then TrainAugment else TestResize;
          train := is_train;
          list_classes := classes |}, snd built).

End Construction.

(** ** Retrieval (lines 128-157) *)

(** [l[index]] on a Python list: a negative index counts from the end. *)
Definition py_getitem {A : Type} (l : list A) (index : Z) : result A :=
  let n := Z.of_nat (List.length l) in
  let i := if (index <? 0)%Z then (index + n)%Z else index in
  if ((i <? 0) || (n <=? i))%Z then raise IndexError
  else match nth_error l (Z.to_nat i) with
       | Some a => ret a
       | None => raise IndexError
       end.

(** [l.index(x)] *)
Fixpoint py_index (l : list string) (x : string) : result nat :=
  match l with
  | [] => raise ValueError_index
  | y :: r => if String.eqb y x then ret 0%nat
              else i <- py_index r x ;; ret (S i)
  end.

Fixpoint mapM {A B : Type} (f : A -> result B) (l : list A) : result (list B) :=
  match l with
  | [] => ret []
  | a :: r => b <- f a ;; bs <- mapM f r ;; ret (b :: bs)
  end.

(** Iterating a [str] yields its one-character strings. *)
Definition chars (s : string) : list string :=
  map (fun c => String c EmptyString) (list_ascii_of_string s).

(** A method body: it receives [self] and leaves [self] behind, whether it
    returns or raises. *)
Definition method (A : Type) : Type := UWDataset -> result A * UWDataset.

Definition attr {A : Type} (f : UWDataset -> A) : method A :=
  fun self => (ret (f self), self).
Definition lift {A : Type} (r : result A) : method A :=
  fun self => (r, self).
Definition mbind {A B : Type} (m : method A) (k : A -> method B) : method B :=
  fun self =>
    match m self with
    | (inl e, self') => (inl e, self')
    | (inr a, self') => k a self'
    end.

Notation "x <~ m ;; k" := (mbind m (fun x => k))
  (at level 61, m at next level, right associativity).

Definition __len__ : method nat :=
  anns <~ attr annotations ;;
  lift (ret (List.length anns)).

(** Decoded images, tensors and the external image pipeline:
    [cv2.imread] (which returns [None] for a file it cannot decode), the
    channel flip [[:,:,::-1]], [self.transforms(image=...)['image']] and
    [torch.stack]. *)
Record ImagePipeline : Type := mkImagePipeline {
  image : Type;
  tensor : Type;
  imread : string -> option image;
  flip_channels : image -> image;
  apply_transforms : pipeline -> image -> tensor;
  stack : list tensor -> tensor
}.

Section Retrieval.

Variable cv : ImagePipeline.

(** [cv2.imread(path)[:,:,::-1]] *)
Definition imread_rgb (path : string) : result (image cv) :=
  match imread cv path with
  | None => raise TypeError
  | Some img => ret (flip_channels cv img)
  end.

Definition torch_stack (images : list (tensor cv)) : result (tensor cv) :=
  match images with
  | [] => raise RuntimeError
  | _ :: _ => ret (stack cv images)
  end.

Definition __getitem__ (index : Z) : method (tensor cv * nat) :=
  is_train <~ attr train ;;
  if is_train : bool then
    anns <~ attr annotations ;;
    a <~ lift (py_getitem anns index) ;;
    img <~ lift (match image_path a with
                 | Single path => imread_rgb path
                 | Frames _ => raise TypeError
                 end) ;;
    tf <~ attr transforms ;;
    anns' <~ attr annotations ;;
    a' <~ lift (py_getitem anns' index) ;;
    classes <~ attr list_classes ;;
    i <~ lift (py_index classes (label a')) ;;
    lift (ret (apply_transforms cv tf img, i))
  else
    anns <~ attr annotations ;;
    a <~ lift (py_getitem anns index) ;;
    tf <~ attr transforms ;;
    images <~ lift (mapM (fun path => img <- imread_rgb path ;;
                                      ret (apply_transforms cv tf img))
                         (match image_path a with
                          | Frames paths => paths
                          | Single s => chars s
                          end)) ;;
    stacked <~ lift (torch_stack images) ;;
    anns' <~ attr annotations ;;
    a' <~ lift (py_getitem anns' index) ;;
    classes <~ attr list_classes ;;
    i <~ lift (py_index classes (label a')) ;;
    lift (ret (stacked, i)).

(** The image part of [__getitem__] alone, for one record: the tensor
    it computes, or the exception it raises before the label is looked
    up. *)
Definition decoded (is_train : bool) (tf : pipeline) (a : annotation_t)
  : result (tensor cv) :=
  if is_train then
    img <- match image_path a with
           | Single path => imread_rgb path
           | Frames _ => raise TypeError
           end ;;
    ret (apply_transforms cv tf img)
  else
    images <- mapM (fun path => img <- imread_rgb path ;;
                                ret (apply_transforms cv tf img))
                   (match image_path a with
                    | Frames paths => paths
                    | Single s => chars s
                    end) ;;
    torch_stack images.

(** The value or exception of [dataset[index]]. *)
Definition get (ds : UWDataset) (index : Z) : result (tensor cv * nat) :=
  fst (__getitem__ index ds).

(** A client's calls on the object, and the object after them. *)
Inductive call : Type :=
| CallLen
| CallGet (index : Z).

Definition run_call (c : call) (self : UWDataset) : UWDataset :=
  match c with
  | CallLen => snd (__len__ self)
  | CallGet index => snd (__getitem__ index self)
  end.

Definition run_calls (cs : list call) (self : UWDataset) : UWDataset :=
  fold_left (fun s c => run_call c s) cs self.

End Retrieval.

Definition len (ds : UWDataset) : nat :=
  match fst (__len__ ds) with
  | inr n => n
  | inl _ => 0%nat
  end.

(** ** The summary printed by the constructor (lines 122-125) *)

(** [x.split("/")[-1]] *)
Fixpoint last_segment (s acc : string) : string :=
  match s with
  | EmptyString => acc
  | String c r =>
      if Ascii.eqb c "/"%char then last_segment r EmptyString
      else last_segment r (acc ++ String c EmptyString)
  end.

Definition split_names (split_list : list string) : list string :=
  map (fun x => last_segment x EmptyString) split_list.

(** The lines printed by the loop of lines 124-125: every class with the
    number of records that carry it. *)
Definition class_counts (ds : UWDataset) : list (string * nat) :=
  map (fun lbl => (lbl, count_label lbl (annotations ds))) (list_classes ds).

(** ** The script entry (lines 159-166) *)

(** The fields of the configuration the script reads. *)
Record Config : Type := mkConfig {
  excels_path : string;
  species : list string
}.

(** [load_yml] belongs to [utils.config_parser]; it is a parameter here,
    and whatever it raises leaves the script. *)
Definition main (rng : Type)
  (shuffle : rng -> list annot_dict -> list annot_dict * rng)
  (load_yml : string -> result Config)
  (fs : FileSystem) (g : rng) : result (UWDataset * rng) :=
  cfg <- load_yml "../config.yml" ;;
  __init__ rng shuffle fs [join (excels_path cfg) "test_images"] (species cfg) false g.

(** ** Reference notions used to state the properties *)

(** The largest group size over all classes. *)
Definition max_count (annot : annot_t) : nat :=
  fold_right Nat.max 0%nat (map (fun kv => List.length (snd kv)) annot).

(** The oversampling rule in the words of the specification: [rep] full
    passes over the group and one partial pass over its first [rem]
    records, with [rep = max_count div n] and [rem = max_count mod n]. *)
Definition emitted_entries (m : nat) (group : list annot_dict) : list annot_dict :=
  (List.concat (repeat group (m / List.length group))
   ++ firstn (m mod List.length group) group)%list.

(** The number of files that match an entry's root. *)
Definition file_count (fs : FileSystem) (d : annot_dict) : nat :=
  List.length (glob fs (image_root d ++ "*")).

(** The total number of annotation rows over the splits, each split read
    from the first annotation file found in it. *)
Definition total_rows (fs : FileSystem) (split_list : list string) : nat :=
  list_sum (map (fun split =>
                   List.length (read_csv fs (hd "" (glob fs (join split "*.ods")))))
                split_list).

(** A split is well formed when it holds exactly one annotation file. *)
Definition one_annotation_file (fs : FileSystem) (split : string) : Prop :=
  List.length (glob fs (join split "*.ods")) = 1%nat.

(** Decoding a one-hot sequence in the words of the specification: the
    position of its (first) largest entry, read in the class order. *)
Fixpoint argmax_from (best_i : nat) (best : Z) (i : nat) (l : list Z) : nat :=
  match l with
  | [] => best_i
  | x :: r => if (best <? x)%Z then argmax_from i x (S i) r
              else argmax_from best_i best (S i) r
  end.

Definition argmax (l : list Z) : option nat :=
  match l with
  | [] => None
  | x :: r => Some (argmax_from 0%nat x 1%nat r)
  end.

Definition decode_label (classes : list string) (oh : list Z) : option string :=
  match argmax oh with
  | None => None
  | Some i => nth_error classes i
  end.

Definition decodes_to (classes : list string) (oh : list Z) (lbl : string) : bool :=
  match decode_label classes oh with
  | Some l => String.eqb l lbl
  | None => false
  end.

(** The rows of a split, read from the first annotation file found. *)
Definition split_rows (fs : FileSystem) (split : string) : list Row :=
  read_csv fs (hd "" (glob fs (join split "*.ods"))).

(** Every row of every split has its class columns decode to its
    annotation. *)
Definition rows_consistent (fs : FileSystem) (classes split_list : list string) : bool :=
  forallb (fun split =>
             forallb (fun r => decodes_to classes (map (cell r) classes) (annotation r))
                     (split_rows fs split))
          split_list.

Section Shuffled.

Variable rng : Type.
Variable shuffle : rng -> list annot_dict -> list annot_dict * rng.

(** The groups as the train loop sees them, and the generator after the
    last shuffle. *)
Fixpoint shuffle_all (annot : annot_t) (g : rng) : annot_t * rng :=
  match annot with
  | [] => ([], g)
  | (lbl, annot_list) :: rest =>
      let (shuffled, g1) := shuffle g annot_list in
      let (more, g2) := shuffle_all rest g1 in
      ((lbl, shuffled) :: more, g2)
  end.

End Shuffled.

(** The number of entries over all groups, and the invariants of the
    grouping. *)
Definition entries (annot : annot_t) : nat :=
  list_sum (map (fun kv => List.length (snd kv)) annot).

Definition groups_nonempty (annot : annot_t) : Prop :=
  Forall (fun kv : string * list annot_dict => snd kv <> []) annot.

Definition annot_all (Q : string -> annot_dict -> Prop) (annot : annot_t) : Prop :=
  forall lbl l d, In (lbl, l) annot -> In d l -> Q lbl d.

(** The expansion of the emitted entries of every group into records. *)
Definition expand_groups (fs : FileSystem) (m : nat) (groups : annot_t)
  : list annotation_t :=
  flat_map (fun kv => flat_map (train_records fs (fst kv))
                               (emitted_entries m (snd kv))) groups.

Definition same_groups (annot groups : annot_t) : Prop :=
  Forall2 (fun kv kv' : string * list annot_dict =>
             fst kv = fst kv' /\ Permutation (snd kv) (snd kv')) annot groups.

(** The rows of all splits in reading order, each with its label and the
    dictionary built from it. *)
Definition labelled_rows (fs : FileSystem) (classes split_list : list string)
  : list (string * annot_dict) :=
  flat_map (fun split =>
              map (fun r => (annotation r, row_dict split classes r))
                  (split_rows fs split))
           split_list.

(** [annot.get(lbl, [])] *)
Fixpoint group_of (annot : annot_t) (lbl : string) : list annot_dict :=
  match annot with
  | [] => []
  | (k, l) :: rest => if String.eqb k lbl then l else group_of rest lbl
  end.

(** The distinct elements of a list in the order of their first
    occurrence. *)
Definition add_key (keys : list string) (k : string) : list string :=
  if existsb (String.eqb k) keys then keys else (keys ++ [k])%list.

Definition first_occurrences (l : list string) : list string :=
  fold_left add_key l [].

(** The rows that carry a label, as dictionaries, in reading order. *)
Definition rows_of_label (fs : FileSystem) (classes split_list : list string)
  (lbl : string) : list annot_dict :=
  map snd (filter (fun p => String.eqb (fst p) lbl)
                  (labelled_rows fs classes split_list)).

(** Reading a decimal text back as an integer, sign first ([int(s)] on the
    texts [format_0d] produces). *)
Definition read_int (s : string) : option Z :=
  match s with
  | EmptyString => None
  | String c r =>
      if Ascii.eqb c "-"%char
      then option_map (fun d => Z.opp (Z.of_N (N.of_uint d))) (NilEmpty.uint_of_string r)
      else option_map (fun d => Z.of_N (N.of_uint d)) (NilEmpty.uint_of_string s)
  end.

(** The characters a formatted number is made of: a minus sign or a
    decimal digit. *)
Definition number_char (c : ascii) : bool :=
  Ascii.eqb c "-"%char
  || ((48 <=? nat_of_ascii c)%nat && (nat_of_ascii c <=? 57)%nat).

Fixpoint all_chars (p : ascii -> bool) (s : string) : bool :=
  match s with
  | EmptyString => true
  | String c r => p c && all_chars p r
  end.

(** The text before the first underscore and the text after it. *)
Fixpoint cut_underscore (s : string) : string * string :=
  match s with
  | EmptyString => (EmptyString, EmptyString)
  | String c r =>
      if Ascii.eqb c "_"%char then (EmptyString, r)
      else let (a, b) := cut_underscore r in (String c a, b)
  end.

(** The file name stem of a row: [f"{id_rov:02d}_{img_id:04d}"]. *)
Definition row_stem (r : Row) : string :=
  format_0d 2 (id_rov r) ++ "_" ++ format_0d 4 (img_id r).

(** A character other than the path separator. *)
Definition not_sep (c : ascii) : bool := negb (Ascii.eqb c "/"%char).

(** Identifiers that fit the widths of the format. *)
Definition ids_in_range (r : Row) : Prop :=
  (0 <= id_rov r < 100)%Z /\ (0 <= img_id r < 10000)%Z.

(** Every row of every split has exactly one file matching its root. *)
Definition one_file_per_row (fs : FileSystem) (classes split_list : list string) : bool :=
  forallb (fun split =>
             forallb (fun r => (file_count fs (row_dict split classes r) =? 1)%nat)
                     (split_rows fs split))
          split_list.

(** The number of files matched by the roots of all rows of all splits. *)
Definition total_files (fs : FileSystem) (classes split_list : list string) : nat :=
  list_sum (map (fun p => file_count fs (snd p))
                (labelled_rows fs classes split_list)).

(** ** A concrete split, used to run the definitions

    Split [data/s1] has one annotation file of five rows: class [A] has two
    entries and class [B] three; the first entry of [A] has two matching
    files, every other entry has one.  Split [data/s2] has two annotation
    files.  Split [data/s3] has one annotation file of one row, and no
    image file.  Split [data/s4] has one annotation file of three rows with
    one file each, one of which is not an image. *)
Module Sample.

Fixpoint lookup {V : Type} (tbl : list (string * V)) (dflt : V) (k : string) : V :=
  match tbl with
  | [] => dflt
  | (k0, v) :: r => if String.eqb k0 k then v else lookup r dflt k
  end.

Definition row (lbl : string) (rov img : Z) : Row :=
  {| annotation := lbl; id_rov := rov; img_id := img;
     cell := fun c => if String.eqb c lbl then 1%Z else 0%Z |}.

Definition rows : list Row :=
  [row "A" 1 1; row "B" 1 2; row "A" 1 3; row "B" 1 4; row "B" 1 5].

(** The rows of split [data/s4]: the first is annotated [B] while its
    class columns mark [A]; the other two carry a label that is not a
    class. *)
Definition rows4 : list Row :=
  [{| annotation := "B"; id_rov := 1; img_id := 1;
      cell := fun c => if String.eqb c "A" then 1%Z else 0%Z |};
   row "crab" 1 2; row "crab" 1 3].

Definition fs : FileSystem :=
  {| glob := lookup
       [("data/s1/*.ods", ["data/s1/labels.ods"]);
        ("data/s1/01_0001*", ["data/s1/01_0001_b.jpg"; "data/s1/01_0001_a.jpg"]);
        ("data/s1/01_0002*", ["data/s1/01_0002.jpg"]);
        ("data/s1/01_0003*", ["data/s1/01_0003.jpg"]);
        ("data/s1/01_0004*", ["data/s1/01_0004.jpg"]);
        ("data/s1/01_0005*", ["data/s1/01_0005.jpg"]);
        ("data/s2/*.ods", ["data/s2/a.ods"; "data/s2/b.ods"]);
        ("data/s3/*.ods", ["data/s3/labels.ods"]);
        ("data/s4/*.ods", ["data/s4/labels.ods"]);
        ("data/s4/01_0001*", ["data/s4/01_0001.jpg"]);
        ("data/s4/01_0002*", ["data/s4/01_0002.txt"]);
        ("data/s4/01_0003*", ["data/s4/01_0003.jpg"])] [];
     read_csv := lookup [("data/s1/labels.ods", rows);
                         ("data/s3/labels.ods", [row "A" 3 7]);
                         ("data/s4/labels.ods", rows4)] [] |}.

(** The image pipeline: a decoded image is the path it was read from, a
    tensor the list of the images it holds; the text file does not
    decode. *)
Definition cv : ImagePipeline :=
  {| image := string;
     tensor := list string;
     imread := fun path =>
       if String.eqb path "data/s4/01_0002.txt" then None else Some path;
     flip_channels := fun img => img;
     apply_transforms := fun _ img => [img];
     stack := @List.concat string |}.

Definition split_list : list string := ["data/s1"].
Definition classes : list string := ["A"; "B"].

(** A generator that counts the shuffles and reverses the list. *)
Definition shuffle (g : nat) (l : list annot_dict) : list annot_dict * nat :=
  (rev l, S g).

End Sample.

(** A configuration and a file system for the script entry: the directory
    [data/test_images] holds one annotation file of two rows. *)
Definition sample_load_yml (path : string) : result Config :=
  if String.eqb path "../config.yml"
  then ret {| excels_path := "data"; species := Sample.classes |}
  else raise RuntimeError.

Definition sample_fs_script : FileSystem :=
  {| glob := Sample.lookup
       [("data/test_images/*.ods", ["data/test_images/labels.ods"]);
        ("data/test_images/01_0001*", ["data/test_images/01_0001.jpg"]);
        ("data/test_images/01_0002*", ["data/test_images/01_0002.jpg"])] [];
     read_csv := Sample.lookup
       [("data/test_images/labels.ods", [Sample.row "A" 1 1; Sample.row "B" 1 2])] [] |}.

(** The sample file system with every directory listing reversed. *)
Definition sample_fs_reversed : FileSystem :=
  {| glob := fun pattern => rev (glob Sample.fs pattern);
     read_csv := read_csv Sample.fs |}.

(** * Properties *)

(** ** Lists and the error monad *)

Lemma bind_inr {A B : Type} (m : result A) (k : A -> result B) (b : B) :
  bind m k = inr b -> exists a, m = inr a /\ k a = inr b.
Proof.
  destruct m as [e | a]; simpl; intros H.
  - discriminate.
  - exists a. split; [reflexivity | exact H].
Qed.

Lemma flat_map_const_seq {B : Type} (body : list B) (n s : nat) :
  flat_map (fun _ : nat => body) (seq s n) = List.concat (repeat body n).
Proof.
  revert s. induction n as [| n IH]; intros s; simpl.
  - reflexivity.
  - now rewrite IH.
Qed.

Lemma flat_map_concat_repeat {A B : Type} (f : A -> list B) (l : list A) (n : nat) :
  flat_map f (List.concat (repeat l n)) = List.concat (repeat (flat_map f l) n).
Proof.
  induction n as [| n IH]; simpl.
  - reflexivity.
  - now rewrite flat_map_app, IH.
Qed.

Lemma length_concat_repeat {A : Type} (l : list A) (n : nat) :
  List.length (List.concat (repeat l n)) = (n * List.length l)%nat.
Proof.
  induction n as [| n IH]; simpl.
  - reflexivity.
  - now rewrite length_app, IH.
Qed.

Lemma length_flat_map_sum {A B : Type} (f : A -> list B) (l : list A) :
  List.length (flat_map f l) = list_sum (map (fun a => List.length (f a)) l).
Proof.
  induction l as [| a l IH]; simpl.
  - reflexivity.
  - now rewrite length_app, IH.
Qed.

(** ** The oversampling rule on one group *)

Lemma emitted_entries_length (m : nat) (group : list annot_dict) :
  group <> [] -> List.length (emitted_entries m group) = m.
Proof.
  intros Hne. unfold emitted_entries.
  assert (Hn : List.length group <> 0%nat) by (destruct group; simpl; congruence).
  rewrite length_app, length_concat_repeat, length_firstn.
  pose proof (Nat.mod_upper_bound m _ Hn) as Hlt.
  pose proof (Nat.div_mod_eq m (List.length group)) as Hdm.
  rewrite Nat.min_l by lia. lia.
Qed.

Lemma oversample_group_emitted (fs : FileSystem) (m : nat) (lbl : string)
  (group : list annot_dict) :
  group <> [] ->
  oversample_group fs m lbl group
  = inr (flat_map (train_records fs lbl) (emitted_entries m group)).
Proof.
  intros Hne. unfold oversample_group, py_floordiv, py_mod, emitted_entries.
  destruct group as [| d group]; [congruence |].
  cbn [List.length Nat.eqb bind ret].
  rewrite flat_map_const_seq, flat_map_app, flat_map_concat_repeat.
  reflexivity.
Qed.

Lemma oversample_group_empty (fs : FileSystem) (m : nat) (lbl : string) :
  oversample_group fs m lbl [] = inl ZeroDivisionError.
Proof. reflexivity. Qed.

(** ** Invariants of the grouping built by [read_splits] *)

Lemma annot_append_keys (annot : annot_t) (lbl : string) (d : annot_dict) (k : string) :
  In k (map fst (annot_append annot lbl d)) <-> k = lbl \/ In k (map fst annot).
Proof.
  induction annot as [| [k0 l0] rest IH]; simpl.
  - intuition congruence.
  - destruct (String.eqb_spec k0 lbl) as [Heq0 | Hne]; [subst k0 |]; simpl.
    + intuition.
    + rewrite IH. intuition.
Qed.

Lemma annot_append_NoDup (annot : annot_t) (lbl : string) (d : annot_dict) :
  NoDup (map fst annot) -> NoDup (map fst (annot_append annot lbl d)).
Proof.
  induction annot as [| [k0 l0] rest IH]; simpl; intros Hnd.
  - constructor; [intros [] | constructor].
  - inversion Hnd as [| ? ? Hnotin Hrest]; subst.
    destruct (String.eqb_spec k0 lbl) as [Heq0 | Hne]; [subst k0 |]; simpl.
    + constructor; assumption.
    + constructor; [| auto].
      rewrite annot_append_keys. intros [-> | Hin]; [congruence | contradiction].
Qed.

Lemma annot_append_nonempty (annot : annot_t) (lbl : string) (d : annot_dict) :
  groups_nonempty annot -> groups_nonempty (annot_append annot lbl d).
Proof.
  unfold groups_nonempty.
  induction annot as [| [k0 l0] rest IH]; simpl; intros Hne.
  - constructor; [simpl; congruence | constructor].
  - inversion Hne as [| ? ? Hhd Htl]; subst.
    destruct (String.eqb k0 lbl); constructor; simpl in *; auto.
    destruct l0; simpl; congruence.
Qed.

Lemma annot_append_entries (annot : annot_t) (lbl : string) (d : annot_dict) :
  entries (annot_append annot lbl d) = S (entries annot).
Proof.
  unfold entries.
  induction annot as [| [k0 l0] rest IH]; simpl.
  - reflexivity.
  - destruct (String.eqb k0 lbl); simpl.
    + rewrite length_app. simpl. lia.
    + rewrite IH. lia.
Qed.

Lemma annot_append_all (Q : string -> annot_dict -> Prop) (annot : annot_t)
  (lbl : string) (d : annot_dict) :
  annot_all Q annot -> Q lbl d -> annot_all Q (annot_append annot lbl d).
Proof.
  unfold annot_all.
  induction annot as [| [k0 l0] rest IH]; simpl; intros Hall Hq k l x Hin Hx.
  - destruct Hin as [Heq | []]. inversion Heq; subst.
    destruct Hx as [-> | []]. exact Hq.
  - destruct (String.eqb_spec k0 lbl) as [Heq0 | Hne]; [subst k0 |].
    + destruct Hin as [Heq | Hin].
      * inversion Heq; subst. apply in_app_or in Hx.
        destruct Hx as [Hx | [-> | []]]; [| exact Hq].
        eapply Hall; [left; reflexivity | exact Hx].
      * eapply Hall; [right; exact Hin | exact Hx].
    + destruct Hin as [Heq | Hin].
      * inversion Heq; subst. eapply Hall; [left; reflexivity | exact Hx].
      * apply (IH (fun k' l' x' H1 H2 => Hall k' l' x' (or_intror H1) H2) Hq k l x Hin Hx).
Qed.

Section ReadSplits.

Variable fs : FileSystem.
Variable classes : list string.

Lemma add_rows_invariants (split : string) (rows : list Row) (annot : annot_t) :
  let annot' := fold_left (add_row split classes) rows annot in
  (NoDup (map fst annot) -> NoDup (map fst annot'))
  /\ (groups_nonempty annot -> groups_nonempty annot')
  /\ entries annot' = (entries annot + List.length rows)%nat.
Proof.
  revert annot. induction rows as [| r rows IH]; intros annot; simpl.
  - repeat split; auto.
  - destruct (IH (add_row split classes annot r)) as (Hnd & Hne & Hen).
    unfold add_row in *. repeat split.
    + intros H. apply Hnd, annot_append_NoDup, H.
    + intros H. apply Hne, annot_append_nonempty, H.
    + rewrite Hen, annot_append_entries. lia.
Qed.

Lemma add_rows_all (Q : string -> annot_dict -> Prop) (split : string)
  (rows : list Row) (annot : annot_t) :
  annot_all Q annot ->
  (forall r, In r rows -> Q (annotation r) (row_dict split classes r)) ->
  annot_all Q (fold_left (add_row split classes) rows annot).
Proof.
  revert annot. induction rows as [| r rows IH]; intros annot Hall Hrows; simpl.
  - exact Hall.
  - apply IH.
    + apply annot_append_all; [exact Hall | apply Hrows; now left].
    + intros r' Hr'. apply Hrows. now right.
Qed.

Lemma annotation_file_inr (split f : string) :
  annotation_file fs split = inr f ->
  glob fs (join split "*.ods") = [f].
Proof.
  unfold annotation_file.
  destruct (glob fs (join split "*.ods")) as [| f0 [| f1 r]]; simpl;
    intros H; inversion H; reflexivity.
Qed.

Lemma annotation_file_one (split : string) :
  one_annotation_file fs split ->
  annotation_file fs split = inr (hd "" (glob fs (join split "*.ods"))).
Proof.
  unfold one_annotation_file, annotation_file.
  destruct (glob fs (join split "*.ods")) as [| f0 [| f1 r]]; simpl;
    intros H; try discriminate; reflexivity.
Qed.

Lemma annotation_file_bad (split : string) :
  ~ one_annotation_file fs split ->
  annotation_file fs split = inl SystemExit.
Proof.
  unfold one_annotation_file, annotation_file.
  destruct (glob fs (join split "*.ods")) as [| f0 [| f1 r]]; simpl;
    intros H; try reflexivity. congruence.
Qed.

Lemma read_splits_invariants (split_list : list string) (annot annot' : annot_t) :
  read_splits fs classes split_list annot = inr annot' ->
  Forall (one_annotation_file fs) split_list
  /\ (NoDup (map fst annot) -> NoDup (map fst annot'))
  /\ (groups_nonempty annot -> groups_nonempty annot')
  /\ entries annot' = (entries annot + total_rows fs split_list)%nat.
Proof.
  revert annot. induction split_list as [| split rest IH]; intros annot; simpl.
  - intros H. inversion H; subst. unfold total_rows. simpl.
    repeat split; auto.
  - intros H. apply bind_inr in H. destruct H as (f & Hf & Hrest).
    pose proof (annotation_file_inr _ _ Hf) as Hglob.
    destruct (IH _ Hrest) as (Hone & Hnd & Hne & Hen).
    destruct (add_rows_invariants split (read_csv fs f) annot) as (Hnd0 & Hne0 & Hen0).
    repeat split; auto.
    + constructor; [| exact Hone]. unfold one_annotation_file. now rewrite Hglob.
    + rewrite Hen, Hen0. unfold total_rows. simpl. rewrite Hglob. simpl.
      fold (total_rows fs rest). lia.
Qed.

Lemma read_splits_all (Q : string -> annot_dict -> Prop)
  (split_list : list string) (annot annot' : annot_t) :
  read_splits fs classes split_list annot = inr annot' ->
  annot_all Q annot ->
  (forall split r, In split split_list ->
     In r (read_csv fs (hd "" (glob fs (join split "*.ods")))) ->
     Q (annotation r) (row_dict split classes r)) ->
  annot_all Q annot'.
Proof.
  revert annot. induction split_list as [| split rest IH]; intros annot; simpl.
  - intros H Hall _. inversion H; subst. exact Hall.
  - intros H Hall Hrows. apply bind_inr in H. destruct H as (f & Hf & Hrest).
    pose proof (annotation_file_inr _ _ Hf) as Hglob.
    apply (IH _ Hrest).
    + apply add_rows_all; [exact Hall |].
      intros r Hr. apply Hrows; [now left |]. now rewrite Hglob.
    + intros s r Hs Hr. apply Hrows; [now right | exact Hr].
Qed.

Lemma read_splits_succeeds (split_list : list string) (annot : annot_t) :
  Forall (one_annotation_file fs) split_list ->
  exists annot', read_splits fs classes split_list annot = inr annot'.
Proof.
  revert annot. induction split_list as [| split rest IH]; intros annot Hall; simpl.
  - eexists; reflexivity.
  - inversion Hall as [| ? ? Hone Hrest]; subst.
    rewrite (annotation_file_one _ Hone). simpl. apply IH, Hrest.
Qed.

Lemma read_splits_fails (split_list : list string) (annot : annot_t) :
  Exists (fun split => ~ one_annotation_file fs split) split_list ->
  read_splits fs classes split_list annot = inl SystemExit.
Proof.
  revert annot. induction split_list as [| split rest IH]; intros annot Hex; simpl.
  - inversion Hex.
  - unfold one_annotation_file in *.
    destruct (Nat.eq_dec (List.length (glob fs (join split "*.ods"))) 1) as [Hone | Hbad].
    + rewrite (annotation_file_one _ Hone). simpl. apply IH.
      inversion Hex; subst; [contradiction | assumption].
    + now rewrite (annotation_file_bad _ Hbad).
Qed.

End ReadSplits.

(** ** The train loop *)

Lemma fold_left_max (r : list nat) (x : nat) :
  fold_left Nat.max r x = Nat.max x (fold_right Nat.max 0%nat r).
Proof.
  revert x. induction r as [| y r IH]; intros x; simpl.
  - lia.
  - rewrite IH. lia.
Qed.

Lemma py_max_sizes (annot : annot_t) :
  annot <> [] ->
  py_max (map (fun kv => List.length (snd kv)) annot) = inr (max_count annot).
Proof.
  destruct annot as [| kv rest]; [congruence | intros _].
  unfold py_max, max_count, ret. simpl. now rewrite fold_left_max.
Qed.

Section TrainLoop.

Variable rng : Type.
Variable shuffle : rng -> list annot_dict -> list annot_dict * rng.
Hypothesis shuffle_perm : forall g l, Permutation l (fst (shuffle g l)).

Lemma shuffle_all_same_groups (annot : annot_t) (g : rng) :
  same_groups annot (fst (shuffle_all rng shuffle annot g)).
Proof.
  unfold same_groups. revert g.
  induction annot as [| [lbl l] rest IH]; intros g; simpl.
  - constructor.
  - pose proof (shuffle_perm g l) as Hp.
    destruct (shuffle g l) as [s g1]. specialize (IH g1).
    destruct (shuffle_all rng shuffle rest g1) as [more g2]. simpl in *.
    constructor; [split; [reflexivity | exact Hp] | exact IH].
Qed.

Lemma oversample_shuffle_all (fs : FileSystem) (m : nat) (annot : annot_t) (g : rng) :
  groups_nonempty annot ->
  oversample rng shuffle fs m annot g
  = inr (expand_groups fs m (fst (shuffle_all rng shuffle annot g)),
         snd (shuffle_all rng shuffle annot g)).
Proof.
  unfold groups_nonempty, expand_groups. revert g.
  induction annot as [| [lbl l] rest IH]; intros g Hne; simpl.
  - reflexivity.
  - inversion Hne as [| ? ? Hl Hrest]; subst. simpl in Hl.
    pose proof (shuffle_perm g l) as Hp.
    destruct (shuffle g l) as [s g1]. simpl in Hp.
    assert (Hs : s <> []).
    { intros ->. apply Permutation_sym, Permutation_nil in Hp. contradiction. }
    rewrite (oversample_group_emitted fs m lbl s Hs). simpl.
    rewrite (IH g1 Hrest).
    destruct (shuffle_all rng shuffle rest g1) as [more g2]. reflexivity.
Qed.

Lemma same_groups_nonempty (annot groups : annot_t) :
  same_groups annot groups -> groups_nonempty annot -> groups_nonempty groups.
Proof.
  unfold same_groups, groups_nonempty.
  induction 1 as [| kv kv' annot groups [_ Hp] _ IH]; intros Hne.
  - constructor.
  - inversion Hne; subst. constructor; [| auto].
    intros Hnil. rewrite Hnil in Hp.
    apply Permutation_sym, Permutation_nil in Hp. contradiction.
Qed.

(** What a successful train-mode construction has built. *)
Lemma init_train_inr (fs : FileSystem) (split_list classes : list string)
  (g g' : rng) (ds : UWDataset) :
  __init__ rng shuffle fs split_list classes true g = inr (ds, g') ->
  exists annot,
    read_splits fs classes split_list [] = inr annot
    /\ annot <> []
    /\ ds = {| annotations :=
                 expand_groups fs (max_count annot)
                   (fst (shuffle_all rng shuffle annot g));
               transforms := TrainAugment;
               train := true;
               list_classes := classes |}
    /\ g' = snd (shuffle_all rng shuffle annot g)
    /\ annotations ds <> [].
Proof.
  unfold __init__. intros H.
  apply bind_inr in H. destruct H as (annot & Hread & H).
  destruct (read_splits_invariants fs classes _ _ _ Hread) as (_ & _ & Hne & _).
  specialize (Hne (Forall_nil _)).
  exists annot. split; [exact Hread |].
  apply bind_inr in H. destruct H as (built & Hbuilt & H).
  apply bind_inr in H. destruct H as (n & Hn & H).
  unfold build_annotations in Hbuilt.
  assert (Hnn : annot <> []) by (intros ->; discriminate).
  rewrite (py_max_sizes annot Hnn) in Hbuilt. cbn [bind] in Hbuilt.
  rewrite (oversample_shuffle_all fs _ _ g Hne) in Hbuilt.
  inversion Hbuilt; subst built; clear Hbuilt. simpl fst in *. simpl snd in *.
  inversion H; subst; clear H. simpl.
  repeat split; try congruence.
  intros Hnil. rewrite Hnil in Hn. discriminate.
Qed.

End TrainLoop.

Lemma sample_shuffle_perm (g : nat) (l : list annot_dict) :
  Permutation l (fst (Sample.shuffle g l)).
Proof. apply Permutation_rev. Qed.

(** ** Oversampling (train mode) *)

Section Oversampling.

Variable rng : Type.
Variable shuffle : rng -> list annot_dict -> list annot_dict * rng.
Hypothesis shuffle_perm : forall g l, Permutation l (fst (shuffle g l)).

(** C1.  In train mode every class group (of size [n >= 1], shuffled) is
    emitted as [rep = max_count / n] full passes followed by one partial
    pass over its first [rem = max_count mod n] records, where
    [max_count] is the largest group size; the records of the dataset
    are the file expansion of exactly these entries, group after group,
    so every class contributes [rep * n + rem = max_count] entries
    before file expansion. *)
Theorem train_emits_max_count_entries
  (fs : FileSystem) (split_list classes : list string)
  (g g' : rng) (ds : UWDataset) :
  __init__ rng shuffle fs split_list classes true g = inr (ds, g') ->
  exists annot groups,
    read_splits fs classes split_list [] = inr annot
    /\ groups = fst (shuffle_all rng shuffle annot g)
    /\ same_groups annot groups
    /\ annotations ds
       = flat_map
           (fun kv =>
              flat_map (train_records fs (fst kv))
                (List.concat
                   (repeat (snd kv) (max_count annot / List.length (snd kv)))
                 ++ firstn (max_count annot mod List.length (snd kv)) (snd kv)))
           groups
    /\ Forall
         (fun kv : string * list annot_dict =>
            let n := List.length (snd kv) in
            let rep := (max_count annot / n)%nat in
            let rem := (max_count annot mod n)%nat in
            (1 <= n)%nat
            /\ List.length (emitted_entries (max_count annot) (snd kv))
               = (rep * n + rem)%nat
            /\ (rep * n + rem)%nat = max_count annot)
         groups.
Proof.
  intros Hinit.
  destruct (init_train_inr rng shuffle shuffle_perm _ _ _ _ _ _ Hinit)
    as (annot & Hread & _ & Hds & _ & _).
  exists annot, (fst (shuffle_all rng shuffle annot g)).
  pose proof (shuffle_all_same_groups rng shuffle shuffle_perm annot g) as Hsame.
  destruct (read_splits_invariants fs classes _ _ _ Hread) as (_ & _ & Hne & _).
  specialize (Hne (Forall_nil _)).
  pose proof (same_groups_nonempty _ _ Hsame Hne) as Hne'.
  repeat split; try assumption.
  - rewrite Hds. reflexivity.
  - unfold groups_nonempty in Hne'. rewrite Forall_forall in *.
    intros kv Hkv. specialize (Hne' kv Hkv). cbv zeta.
    assert (Hn : List.length (snd kv) <> 0%nat)
      by (destruct (snd kv); simpl; congruence).
    pose proof (emitted_entries_length (max_count annot) _ Hne') as Hlen.
    pose proof (Nat.div_mod_eq (max_count annot) (List.length (snd kv))) as Hdm.
    repeat split; lia.
Qed.

End Oversampling.

Lemma train_emits_max_count_entries_witness :
  exists ds g',
    __init__ nat Sample.shuffle Sample.fs Sample.split_list Sample.classes true 0%nat
    = inr (ds, g')
    /\ List.length (annotations ds) = 7%nat
    /\ exists annot groups,
         read_splits Sample.fs Sample.classes Sample.split_list [] = inr annot
         /\ groups = fst (shuffle_all nat Sample.shuffle annot 0%nat)
         /\ same_groups annot groups
         /\ annotations ds
            = flat_map
                (fun kv =>
                   flat_map (train_records Sample.fs (fst kv))
                     (List.concat
                        (repeat (snd kv) (max_count annot / List.length (snd kv)))
                      ++ firstn (max_count annot mod List.length (snd kv)) (snd kv)))
                groups
         /\ Forall
              (fun kv : string * list annot_dict =>
                 let n := List.length (snd kv) in
                 let rep := (max_count annot / n)%nat in
                 let rem := (max_count annot mod n)%nat in
                 (1 <= n)%nat
                 /\ List.length (emitted_entries (max_count annot) (snd kv))
                    = (rep * n + rem)%nat
                 /\ (rep * n + rem)%nat = max_count annot)
              groups.
Proof.
  eexists. eexists. split; [vm_compute; reflexivity |].
  split; [reflexivity |].
  eapply (train_emits_max_count_entries nat Sample.shuffle sample_shuffle_perm
            Sample.fs Sample.split_list Sample.classes 0%nat).
  vm_compute. reflexivity.
Defined.

(** ** File expansion (train mode) *)

Lemma sorted_Sorted (l : list string) :
  Sorted (fun a b => String.leb a b = true) (sorted l).
Proof.
  unfold sorted.
  pose proof (StringSort.Sorted_sort l) as H.
  induction H as [| a s Hs IH Hhd]; constructor; auto.
Qed.

Lemma sorted_Permutation (l : list string) : Permutation l (sorted l).
Proof. apply StringSort.Permuted_sort. Qed.

Lemma train_records_length (fs : FileSystem) (lbl : string) (d : annot_dict) :
  List.length (train_records fs lbl d) = file_count fs d.
Proof.
  unfold train_records, same_annot, file_count. rewrite length_map.
  symmetry. apply Permutation_length, sorted_Permutation.
Qed.

Lemma count_label_app (lbl : string) (a b : list annotation_t) :
  count_label lbl (a ++ b) = (count_label lbl a + count_label lbl b)%nat.
Proof. unfold count_label. now rewrite filter_app, length_app. Qed.

Lemma count_label_train_records (fs : FileSystem) (lbl k : string) (d : annot_dict) :
  count_label lbl (train_records fs k d)
  = if String.eqb k lbl then file_count fs d else 0%nat.
Proof.
  rewrite <- train_records_length with (lbl := k).
  unfold count_label, train_records.
  induction (same_annot fs d) as [| p ps IH]; simpl.
  - now destruct (String.eqb k lbl).
  - destruct (String.eqb k lbl); simpl; [now rewrite IH | exact IH].
Qed.

Lemma count_label_entries (fs : FileSystem) (lbl k : string) (es : list annot_dict) :
  count_label lbl (flat_map (train_records fs k) es)
  = if String.eqb k lbl then list_sum (map (file_count fs) es) else 0%nat.
Proof.
  induction es as [| d es IH]; simpl.
  - now destruct (String.eqb k lbl).
  - rewrite count_label_app, IH, count_label_train_records.
    now destruct (String.eqb k lbl).
Qed.

Lemma count_label_absent (fs : FileSystem) (m : nat) (lbl : string) (groups : annot_t) :
  ~ In lbl (map fst groups) -> count_label lbl (expand_groups fs m groups) = 0%nat.
Proof.
  unfold expand_groups.
  induction groups as [| [k l] rest IH]; simpl; intros Hnotin.
  - reflexivity.
  - rewrite count_label_app, count_label_entries, IH by tauto.
    destruct (String.eqb_spec k lbl) as [Heq | _]; [| reflexivity].
    exfalso. apply Hnotin. now left.
Qed.

Lemma count_label_expand (fs : FileSystem) (m : nat) (lbl : string)
  (l : list annot_dict) (groups : annot_t) :
  NoDup (map fst groups) -> In (lbl, l) groups ->
  count_label lbl (expand_groups fs m groups)
  = list_sum (map (file_count fs) (emitted_entries m l)).
Proof.
  induction groups as [| [k l0] rest IH]; simpl; intros Hnd Hin.
  - contradiction.
  - inversion Hnd as [| ? ? Hnotin Hrest]; subst.
    unfold expand_groups in *. simpl.
    rewrite count_label_app, count_label_entries.
    destruct Hin as [Heq | Hin].
    + inversion Heq; subst. rewrite String.eqb_refl.
      fold (expand_groups fs m rest).
      rewrite count_label_absent by exact Hnotin. lia.
    + destruct (String.eqb_spec k lbl) as [Heq | _].
      * subst k. exfalso. apply Hnotin.
        apply in_map_iff. exists (lbl, l). split; [reflexivity | exact Hin].
      * now rewrite IH.
Qed.

Lemma same_groups_keys (annot groups : annot_t) :
  same_groups annot groups -> map fst annot = map fst groups.
Proof.
  induction 1 as [| kv kv' annot groups [Hk _] _ IH]; simpl.
  - reflexivity.
  - now rewrite Hk, IH.
Qed.

Section FileExpansion.

Variable rng : Type.
Variable shuffle : rng -> list annot_dict -> list annot_dict * rng.
Hypothesis shuffle_perm : forall g l, Permutation l (fst (shuffle g l)).

(** C2.  In train mode every emitted entry is expanded into one training
    record per file returned by [glob] for its root followed by a star,
    in lexicographic order; an entry with K matching files therefore
    yields K records at each emission, and the number of records that
    carry a class label is the sum of the file counts over the entries
    emitted for that class. *)
Theorem train_expands_entries_per_file
  (fs : FileSystem) (split_list classes : list string)
  (g g' : rng) (ds : UWDataset) :
  __init__ rng shuffle fs split_list classes true g = inr (ds, g') ->
  exists annot groups,
    read_splits fs classes split_list [] = inr annot
    /\ groups = fst (shuffle_all rng shuffle annot g)
    /\ annotations ds
       = flat_map
           (fun kv =>
              flat_map
                (fun d =>
                   map (fun path => {| image_path := Single path;
                                       label := fst kv;
                                       one_hot := root_one_hot d |})
                       (sorted (glob fs (image_root d ++ "*"))))
                (emitted_entries (max_count annot) (snd kv)))
           groups
    /\ (forall d,
          Sorted (fun a b => String.leb a b = true)
                 (sorted (glob fs (image_root d ++ "*")))
          /\ Permutation (glob fs (image_root d ++ "*"))
                         (sorted (glob fs (image_root d ++ "*")))
          /\ forall lbl, List.length (train_records fs lbl d) = file_count fs d)
    /\ Forall
         (fun kv : string * list annot_dict =>
            count_label (fst kv) (annotations ds)
            = list_sum (map (file_count fs)
                            (emitted_entries (max_count annot) (snd kv))))
         groups.
Proof.
  intros Hinit.
  destruct (init_train_inr rng shuffle shuffle_perm _ _ _ _ _ _ Hinit)
    as (annot & Hread & _ & Hds & _ & _).
  exists annot, (fst (shuffle_all rng shuffle annot g)).
  pose proof (shuffle_all_same_groups rng shuffle shuffle_perm annot g) as Hsame.
  destruct (read_splits_invariants fs classes _ _ _ Hread) as (_ & Hnd & _ & _).
  specialize (Hnd (NoDup_nil _)).
  rewrite (same_groups_keys _ _ Hsame) in Hnd.
  repeat split.
  - exact Hread.
  - rewrite Hds. reflexivity.
  - apply sorted_Sorted.
  - apply sorted_Permutation.
  - intros lbl. apply train_records_length.
  - rewrite Forall_forall. intros [lbl l] Hin. rewrite Hds. simpl.
    apply count_label_expand; assumption.
Qed.

End FileExpansion.

Lemma train_expands_entries_per_file_witness :
  exists ds g',
    __init__ nat Sample.shuffle Sample.fs Sample.split_list Sample.classes true 0%nat
    = inr (ds, g')
    /\ count_label "A" (annotations ds) = 4%nat
    /\ count_label "B" (annotations ds) = 3%nat
    /\ exists annot groups,
         read_splits Sample.fs Sample.classes Sample.split_list [] = inr annot
         /\ groups = fst (shuffle_all nat Sample.shuffle annot 0%nat)
         /\ annotations ds
            = flat_map
                (fun kv =>
                   flat_map
                     (fun d =>
                        map (fun path => {| image_path := Single path;
                                            label := fst kv;
                                            one_hot := root_one_hot d |})
                            (sorted (glob Sample.fs (image_root d ++ "*"))))
                     (emitted_entries (max_count annot) (snd kv)))
                groups
         /\ (forall d,
               Sorted (fun a b => String.leb a b = true)
                      (sorted (glob Sample.fs (image_root d ++ "*")))
               /\ Permutation (glob Sample.fs (image_root d ++ "*"))
                              (sorted (glob Sample.fs (image_root d ++ "*")))
               /\ forall lbl,
                    List.length (train_records Sample.fs lbl d)
                    = file_count Sample.fs d)
         /\ Forall
              (fun kv : string * list annot_dict =>
                 count_label (fst kv) (annotations ds)
                 = list_sum (map (file_count Sample.fs)
                                 (emitted_entries (max_count annot) (snd kv))))
              groups.
Proof.
  eexists. eexists. split; [vm_compute; reflexivity |].
  split; [reflexivity |]. split; [reflexivity |].
  eapply (train_expands_entries_per_file nat Sample.shuffle sample_shuffle_perm
            Sample.fs Sample.split_list Sample.classes 0%nat).
  vm_compute. reflexivity.
Defined.

(** ** Evaluation mode *)

Lemma test_annotations_length (fs : FileSystem) (annot : annot_t) :
  List.length (test_annotations fs annot) = entries annot.
Proof.
  unfold test_annotations, entries.
  rewrite length_flat_map_sum. f_equal.
  apply map_ext. intros kv. apply length_map.
Qed.

Section Evaluation.

Variable rng : Type.
Variable shuffle : rng -> list annot_dict -> list annot_dict * rng.

Lemma init_test_inr (fs : FileSystem) (split_list classes : list string)
  (g g' : rng) (ds : UWDataset) :
  __init__ rng shuffle fs split_list classes false g = inr (ds, g') ->
  exists annot,
    read_splits fs classes split_list [] = inr annot
    /\ ds = {| annotations := test_annotations fs annot;
               transforms := TestResize;
               train := false;
               list_classes := classes |}
    /\ g' = g
    /\ annotations ds <> [].
Proof.
  unfold __init__. intros H.
  apply bind_inr in H. destruct H as (annot & Hread & H).
  exists annot. split; [exact Hread |].
  simpl in H. apply bind_inr in H. destruct H as (n & Hn & H).
  inversion H; subst; clear H. simpl.
  repeat split. intros Hnil. rewrite Hnil in Hn. discriminate.
Qed.

(** C3.  In eval mode the dataset holds, group after group and row after
    row, one record per annotation row: its paths are the sorted list of
    the files matching the row's root, nothing is shuffled (the
    generator is left as it was) and nothing is repeated, so the length
    of the dataset is the total number of annotation rows of the
    splits. *)
Theorem eval_one_record_per_row
  (fs : FileSystem) (split_list classes : list string)
  (g g' : rng) (ds : UWDataset) :
  __init__ rng shuffle fs split_list classes false g = inr (ds, g') ->
  exists annot,
    read_splits fs classes split_list [] = inr annot
    /\ annotations ds
       = flat_map
           (fun kv =>
              map (fun d =>
                     {| image_path := Frames (sorted (glob fs (image_root d ++ "*")));
                        label := fst kv;
                        one_hot := root_one_hot d |})
                  (snd kv))
           annot
    /\ (forall d,
          Sorted (fun a b => String.leb a b = true)
                 (sorted (glob fs (image_root d ++ "*")))
          /\ Permutation (glob fs (image_root d ++ "*"))
                         (sorted (glob fs (image_root d ++ "*"))))
    /\ g' = g
    /\ entries annot = total_rows fs split_list
    /\ len ds = total_rows fs split_list.
Proof.
  intros Hinit.
  destruct (init_test_inr _ _ _ _ _ _ Hinit) as (annot & Hread & Hds & Hg & _).
  destruct (read_splits_invariants fs classes _ _ _ Hread) as (_ & _ & _ & Hen).
  exists annot. rewrite Hds. unfold len. simpl.
  rewrite test_annotations_length.
  repeat split; auto using sorted_Sorted, sorted_Permutation.
Qed.

End Evaluation.

Lemma eval_one_record_per_row_witness :
  exists ds g',
    __init__ nat Sample.shuffle Sample.fs Sample.split_list Sample.classes false 0%nat
    = inr (ds, g')
    /\ len ds = 5%nat
    /\ exists annot,
         read_splits Sample.fs Sample.classes Sample.split_list [] = inr annot
         /\ annotations ds
            = flat_map
                (fun kv =>
                   map (fun d =>
                          {| image_path :=
                               Frames (sorted (glob Sample.fs (image_root d ++ "*")));
                             label := fst kv;
                             one_hot := root_one_hot d |})
                       (snd kv))
                annot
         /\ (forall d,
               Sorted (fun a b => String.leb a b = true)
                      (sorted (glob Sample.fs (image_root d ++ "*")))
               /\ Permutation (glob Sample.fs (image_root d ++ "*"))
                              (sorted (glob Sample.fs (image_root d ++ "*"))))
         /\ g' = 0%nat
         /\ entries annot = total_rows Sample.fs Sample.split_list
         /\ len ds = total_rows Sample.fs Sample.split_list.
Proof.
  eexists. eexists. split; [vm_compute; reflexivity |].
  split; [reflexivity |].
  eapply (eval_one_record_per_row nat Sample.shuffle
            Sample.fs Sample.split_list Sample.classes 0%nat).
  vm_compute. reflexivity.
Defined.

(** ** Construction errors *)

Section ConstructionErrors.

Variable rng : Type.
Variable shuffle : rng -> list annot_dict -> list annot_dict * rng.


Hypothesis shuffle_perm : forall g l, Permutation l (fst (shuffle g l)).

Lemma build_annotations_cases (fs : FileSystem) (is_train : bool)
  (annot : annot_t) (g : rng) :
  groups_nonempty annot ->
  build_annotations rng shuffle fs is_train annot g = inl ValueError_max
  \/ exists built, build_annotations rng shuffle fs is_train annot g = inr built.
Proof.
  intros Hne. unfold build_annotations. destruct is_train.
  - destruct annot as [| kv rest] eqn:Ha.
    + left. reflexivity.
    + right. rewrite <- Ha in *.
      rewrite py_max_sizes by (rewrite Ha; congruence). cbn [bind].
      rewrite (oversample_shuffle_all rng shuffle shuffle_perm fs _ _ g Hne).
      eexists; reflexivity.
  - right. eexists; reflexivity.
Qed.

(** C5.  When the splits are read and the index loops produce no record
    at all, the constructor does not return an empty dataset: it raises,
    at [max] over no group or at [self.annotations[0]], the error the
    specification calls EmptySplitError. *)
Theorem no_records_is_an_error
  (fs : FileSystem) (split_list classes : list string)
  (is_train : bool) (g : rng) (annot : annot_t) :
  read_splits fs classes split_list [] = inr annot ->
  match build_annotations rng shuffle fs is_train annot g with
  | inr built => fst built = []
  | inl _ => True
  end ->
  (exists e, __init__ rng shuffle fs split_list classes is_train g = inl e
             /\ EmptySplitError e)
  /\ forall ds g', __init__ rng shuffle fs split_list classes is_train g
                   <> inr (ds, g').
Proof.
  intros Hread Hempty.
  destruct (read_splits_invariants fs classes _ _ _ Hread) as (_ & _ & Hne & _).
  specialize (Hne (Forall_nil _)).
  unfold __init__. rewrite Hread. cbn [bind].
  destruct (build_annotations_cases fs is_train annot g Hne) as [Hb | [built Hb]];
    rewrite Hb in *; cbn [bind].
  - split; [| intros ds g' H; discriminate].
    exists ValueError_max. split; [reflexivity | now left].
  - rewrite Hempty. cbn [frames_per_annotation bind raise].
    split; [| intros ds g' H; discriminate].
    exists IndexError. split; [reflexivity | now right].
Qed.

(** Every dataset the constructor returns has at least one record. *)
Lemma init_returns_nonempty
  (fs : FileSystem) (split_list classes : list string)
  (is_train : bool) (g g' : rng) (ds : UWDataset) :
  __init__ rng shuffle fs split_list classes is_train g = inr (ds, g') ->
  (0 < len ds)%nat.
Proof.
  intros H. unfold __init__ in H.
  apply bind_inr in H. destruct H as (annot & _ & H).
  apply bind_inr in H. destruct H as (built & _ & H).
  apply bind_inr in H. destruct H as (n & Hn & H).
  inversion H; subst; clear H. unfold len. simpl.
  destruct (fst built); [discriminate | simpl; lia].
Qed.

End ConstructionErrors.


Lemma no_records_is_an_error_witness :
  (exists e, __init__ nat Sample.shuffle Sample.fs ["data/s3"] Sample.classes true 0%nat
             = inl e
             /\ EmptySplitError e)
  /\ forall ds g', __init__ nat Sample.shuffle Sample.fs ["data/s3"] Sample.classes
                     true 0%nat <> inr (ds, g').
Proof.
  eapply (no_records_is_an_error nat Sample.shuffle sample_shuffle_perm
            Sample.fs ["data/s3"] Sample.classes true 0%nat).
  - vm_compute. reflexivity.
  - vm_compute. reflexivity.
Defined.

(** ** Construction returns *)

Section ConstructionReturns.

Variable rng : Type.
Variable shuffle : rng -> list annot_dict -> list annot_dict * rng.
Hypothesis shuffle_perm : forall g l, Permutation l (fst (shuffle g l)).

(** On tables as the model takes them (well formed), the constructor in
    eval mode returns as soon as every split has its one annotation file
    and there is at least one row. *)
Lemma init_test_returns (fs : FileSystem) (split_list classes : list string) (g : rng) :
  Forall (one_annotation_file fs) split_list ->
  (0 < total_rows fs split_list)%nat ->
  exists ds,
    __init__ rng shuffle fs split_list classes false g = inr (ds, g)
    /\ len ds = total_rows fs split_list.
Proof.
  intros Hone Hrows.
  destruct (read_splits_succeeds fs classes split_list [] Hone) as (annot & Hread).
  destruct (read_splits_invariants fs classes _ _ _ Hread) as (_ & _ & _ & Hen).
  unfold __init__. rewrite Hread. cbn [bind build_annotations ret fst snd].
  pose proof (test_annotations_length fs annot) as Hlen.
  destruct (test_annotations fs annot) as [| a anns] eqn:Ht.
  - simpl in Hlen. unfold entries in Hen at 2. simpl in Hen. lia.
  - eexists. split.
    + unfold frames_per_annotation. destruct (image_path a); reflexivity.
    + unfold len. simpl. simpl in Hlen. unfold entries in Hen at 2. simpl in Hen. lia.
Qed.

(** On tables as the model takes them (well formed), the constructor in
    train mode returns as soon as the splits are read and some emitted
    entry has a matching file. *)
Lemma init_train_returns (fs : FileSystem) (split_list classes : list string)
  (g : rng) (annot : annot_t) :
  read_splits fs classes split_list [] = inr annot ->
  expand_groups fs (max_count annot) (fst (shuffle_all rng shuffle annot g)) <> [] ->
  exists ds g', __init__ rng shuffle fs split_list classes true g = inr (ds, g').
Proof.
  intros Hread Hne.
  destruct (read_splits_invariants fs classes _ _ _ Hread) as (_ & _ & Hgn & _).
  specialize (Hgn (Forall_nil _)).
  assert (Hnn : annot <> []) by (intros ->; apply Hne; reflexivity).
  unfold __init__. rewrite Hread. cbn [bind build_annotations].
  rewrite (py_max_sizes annot Hnn). cbn [bind].
  rewrite (oversample_shuffle_all rng shuffle shuffle_perm fs _ _ g Hgn).
  cbn [bind fst snd].
  destruct (expand_groups fs (max_count annot)
              (fst (shuffle_all rng shuffle annot g))) as [| a anns];
    [congruence |].
  unfold frames_per_annotation. destruct (image_path a); eexists; eexists; reflexivity.
Qed.

End ConstructionReturns.

(** ** Where the records come from *)

Lemma in_concat_repeat {A : Type} (x : A) (l : list A) (n : nat) :
  In x (List.concat (repeat l n)) -> In x l.
Proof.
  induction n as [| n IH]; simpl.
  - intros [].
  - rewrite in_app_iff. tauto.
Qed.

Lemma in_firstn {A : Type} (x : A) (n : nat) (l : list A) :
  In x (firstn n l) -> In x l.
Proof.
  intros H. rewrite <- (firstn_skipn n l). apply in_or_app. now left.
Qed.

Lemma in_emitted_entries (m : nat) (l : list annot_dict) (d : annot_dict) :
  In d (emitted_entries m l) -> In d l.
Proof.
  unfold emitted_entries. rewrite in_app_iff. intros [H | H].
  - eapply in_concat_repeat, H.
  - eapply in_firstn, H.
Qed.

Lemma same_groups_in (annot groups : annot_t) (lbl : string) (l' : list annot_dict) :
  same_groups annot groups -> In (lbl, l') groups ->
  exists l, In (lbl, l) annot /\ Permutation l l'.
Proof.
  induction 1 as [| [k l] [k' s] annot groups [Hk Hp] _ IH]; simpl; intros Hin.
  - contradiction.
  - simpl in Hk, Hp. destruct Hin as [Heq | Hin].
    + inversion Heq; subst. exists l. split; [now left | exact Hp].
    + destruct (IH Hin) as (l0 & Hl0 & Hp0). exists l0. split; [now right | exact Hp0].
Qed.

Lemma expand_groups_in (fs : FileSystem) (m : nat) (groups : annot_t) (a : annotation_t) :
  In a (expand_groups fs m groups) ->
  exists lbl l d, In (lbl, l) groups /\ In d l
                  /\ label a = lbl /\ one_hot a = root_one_hot d.
Proof.
  unfold expand_groups. rewrite in_flat_map. intros ([lbl l] & Hkv & Ha).
  simpl in Ha. rewrite in_flat_map in Ha. destruct Ha as (d & Hd & Ha).
  unfold train_records in Ha. rewrite in_map_iff in Ha.
  destruct Ha as (path & <- & _).
  exists lbl, l, d. repeat split; auto. eapply in_emitted_entries, Hd.
Qed.

Lemma test_annotations_in (fs : FileSystem) (annot : annot_t) (a : annotation_t) :
  In a (test_annotations fs annot) ->
  exists lbl l d, In (lbl, l) annot /\ In d l
                  /\ label a = lbl /\ one_hot a = root_one_hot d.
Proof.
  unfold test_annotations. rewrite in_flat_map. intros ([lbl l] & Hkv & Ha).
  simpl in Ha. rewrite in_map_iff in Ha. destruct Ha as (d & <- & Hd).
  exists lbl, l, d. repeat split; auto.
Qed.

Lemma decodes_to_true (classes : list string) (oh : list Z) (lbl : string) :
  decodes_to classes oh lbl = true -> decode_label classes oh = Some lbl.
Proof.
  unfold decodes_to. destruct (decode_label classes oh) as [l |]; [| discriminate].
  intros H. apply String.eqb_eq in H. now subst.
Qed.

Section Provenance.

Variable rng : Type.
Variable shuffle : rng -> list annot_dict -> list annot_dict * rng.
Hypothesis shuffle_perm : forall g l, Permutation l (fst (shuffle g l)).

Lemma init_records_all (Q : string -> annot_dict -> Prop)
  (fs : FileSystem) (split_list classes : list string)
  (is_train : bool) (g g' : rng) (ds : UWDataset) :
  __init__ rng shuffle fs split_list classes is_train g = inr (ds, g') ->
  (forall split r, In split split_list -> In r (split_rows fs split) ->
     Q (annotation r) (row_dict split classes r)) ->
  list_classes ds = classes
  /\ Forall (fun a => exists d, Q (label a) d /\ one_hot a = root_one_hot d)
            (annotations ds).
Proof.
  intros Hinit Hrows. destruct is_train.
  - destruct (init_train_inr rng shuffle shuffle_perm _ _ _ _ _ _ Hinit)
      as (annot & Hread & _ & Hds & _ & _).
    pose proof (read_splits_all fs classes Q _ _ _ Hread) as Hall.
    assert (HQ : annot_all Q annot).
    { apply Hall; [intros ? ? ? [] | exact Hrows]. }
    rewrite Hds. simpl. split; [reflexivity |].
    rewrite Forall_forall. intros a Ha.
    apply expand_groups_in in Ha. destruct Ha as (lbl & l' & d & Hg & Hd & Hl & Ho).
    destruct (same_groups_in _ _ _ _
                (shuffle_all_same_groups rng shuffle shuffle_perm annot g) Hg)
      as (l & Hl0 & Hp).
    exists d. split; [| exact Ho]. rewrite Hl.
    apply (HQ lbl l d Hl0). eapply Permutation_in; [symmetry; exact Hp | exact Hd].
  - destruct (init_test_inr rng shuffle _ _ _ _ _ _ Hinit)
      as (annot & Hread & Hds & _ & _).
    pose proof (read_splits_all fs classes Q _ _ _ Hread) as Hall.
    assert (HQ : annot_all Q annot).
    { apply Hall; [intros ? ? ? [] | exact Hrows]. }
    rewrite Hds. simpl. split; [reflexivity |].
    rewrite Forall_forall. intros a Ha.
    apply test_annotations_in in Ha. destruct Ha as (lbl & l & d & Hg & Hd & Hl & Ho).
    exists d. split; [| exact Ho]. rewrite Hl. apply (HQ lbl l d Hg Hd).
Qed.

(** C6, as the code has it.  Every record of a constructed dataset, in
    both modes and whatever the spreadsheets hold, carries the annotation
    of one spreadsheet row as its label and that row's class columns, in
    class order, as its one-hot sequence; nothing checks one against the
    other.  Hence, when every row of the splits has its class columns
    decode (by argmax over the class order) to its annotation, so does
    every record of the dataset. *)
Theorem one_hot_decodes_to_label_when_rows_do
  (fs : FileSystem) (split_list classes : list string)
  (is_train : bool) (g g' : rng) (ds : UWDataset) :
  __init__ rng shuffle fs split_list classes is_train g = inr (ds, g') ->
  Forall (fun a =>
            exists split r,
              In split split_list /\ In r (split_rows fs split)
              /\ label a = annotation r
              /\ one_hot a = map (cell r) (list_classes ds))
         (annotations ds)
  /\ (rows_consistent fs classes split_list = true ->
      Forall (fun a => decode_label (list_classes ds) (one_hot a) = Some (label a))
             (annotations ds)).
Proof.
  intros Hinit.
  pose (Q := fun (lbl : string) (d : annot_dict) =>
               exists split r,
                 In split split_list /\ In r (split_rows fs split)
                 /\ lbl = annotation r
                 /\ root_one_hot d = map (cell r) classes).
  destruct (init_records_all Q _ _ _ _ _ _ _ Hinit) as (Hcl & Hall).
  { intros split r Hs Hr. unfold Q. exists split, r. repeat split; auto. }
  assert (Hprov : Forall (fun a =>
                            exists split r,
                              In split split_list /\ In r (split_rows fs split)
                              /\ label a = annotation r
                              /\ one_hot a = map (cell r) (list_classes ds))
                         (annotations ds)).
  { rewrite Hcl. eapply Forall_impl; [| exact Hall].
    intros a (d & (split & r & Hs & Hr & Hl & Hoh) & Ho).
    exists split, r. repeat split; auto. now rewrite Ho. }
  split; [exact Hprov |].
  intros Hcons. eapply Forall_impl; [| exact Hprov].
  intros a (split & r & Hs & Hr & Hl & Hoh).
  unfold rows_consistent in Hcons. rewrite forallb_forall in Hcons.
  specialize (Hcons split Hs). rewrite forallb_forall in Hcons.
  specialize (Hcons r Hr). apply decodes_to_true in Hcons.
  rewrite Hoh, Hl, Hcl. exact Hcons.
Qed.

End Provenance.

Lemma one_hot_decodes_to_label_when_rows_do_witness :
  (exists ds g',
      __init__ nat Sample.shuffle Sample.fs ["data/s4"] Sample.classes false 0%nat
      = inr (ds, g')
      /\ rows_consistent Sample.fs Sample.classes ["data/s4"] = false
      /\ Forall (fun a =>
                   exists split r,
                     In split ["data/s4"] /\ In r (split_rows Sample.fs split)
                     /\ label a = annotation r
                     /\ one_hot a = map (cell r) (list_classes ds))
                (annotations ds))
  /\ (exists ds g',
         __init__ nat Sample.shuffle Sample.fs Sample.split_list Sample.classes
           true 0%nat = inr (ds, g')
         /\ rows_consistent Sample.fs Sample.classes Sample.split_list = true
         /\ Forall (fun a =>
                      exists split r,
                        In split Sample.split_list /\ In r (split_rows Sample.fs split)
                        /\ label a = annotation r
                        /\ one_hot a = map (cell r) (list_classes ds))
                   (annotations ds)
         /\ Forall (fun a =>
                      decode_label (list_classes ds) (one_hot a) = Some (label a))
                   (annotations ds)).
Proof.
  split.
  - eexists. eexists. split; [vm_compute; reflexivity |].
    split; [reflexivity |].
    lazymatch goal with
    | |- Forall _ (annotations ?ds) =>
        exact (proj1 (one_hot_decodes_to_label_when_rows_do nat Sample.shuffle
                        sample_shuffle_perm Sample.fs ["data/s4"] Sample.classes
                        false 0%nat 0%nat ds eq_refl))
    end.
  - eexists. eexists. split; [vm_compute; reflexivity |].
    split; [reflexivity |].
    lazymatch goal with
    | |- Forall _ (annotations ?ds) /\ _ =>
        pose proof (one_hot_decodes_to_label_when_rows_do nat Sample.shuffle
                      sample_shuffle_perm Sample.fs Sample.split_list Sample.classes
                      true 0%nat 2%nat ds eq_refl) as H
    end.
    split; [exact (proj1 H) | exact (proj2 H eq_refl)].
Defined.

(** C6, as stated, fails: a constructed record whose one-hot sequence
    decodes to [A] while its label is [B]. *)
Lemma one_hot_roundtrip_counterexample :
  exists ds g',
    __init__ nat Sample.shuffle Sample.fs ["data/s4"] Sample.classes false 0%nat
    = inr (ds, g')
    /\ ~ Forall (fun a => decode_label (list_classes ds) (one_hot a) = Some (label a))
                (annotations ds).
Proof.
  eexists. eexists. split; [vm_compute; reflexivity |].
  intros H. inversion H as [| a l Hhd Htl]; subst. vm_compute in Hhd. discriminate.
Qed.

(** ** Retrieval *)

Lemma py_getitem_out_of_range {A : Type} (l : list A) (index : Z) :
  (Z.of_nat (List.length l) <= index)%Z -> py_getitem l index = inl IndexError.
Proof.
  intros H. unfold py_getitem.
  destruct (Z.ltb_spec index 0); [lia |].
  destruct (Z.ltb_spec index 0); [lia |].
  destruct (Z.leb_spec (Z.of_nat (List.length l)) index); [reflexivity | lia].
Qed.

Lemma py_getitem_in_range {A : Type} (l : list A) (index : Z) :
  (0 <= index < Z.of_nat (List.length l))%Z ->
  exists a, nth_error l (Z.to_nat index) = Some a /\ py_getitem l index = inr a.
Proof.
  intros H. unfold py_getitem.
  destruct (Z.ltb_spec index 0); [lia |].
  destruct (Z.ltb_spec index 0); [lia |].
  destruct (Z.leb_spec (Z.of_nat (List.length l)) index); [lia |]. simpl.
  destruct (nth_error l (Z.to_nat index)) as [a |] eqn:Hn.
  - exists a. split; reflexivity.
  - apply nth_error_None in Hn. lia.
Qed.

Lemma py_getitem_negative {A : Type} (l : list A) (k : Z) :
  (1 <= k <= Z.of_nat (List.length l))%Z ->
  py_getitem l (- k) = py_getitem l (Z.of_nat (List.length l) - k).
Proof.
  intros H. unfold py_getitem.
  destruct (Z.ltb_spec (- k) 0); [| lia].
  destruct (Z.ltb_spec (Z.of_nat (List.length l) - k) 0); [lia |].
  replace (- k + Z.of_nat (List.length l))%Z
    with (Z.of_nat (List.length l) - k)%Z by lia.
  reflexivity.
Qed.

Lemma py_index_absent (l : list string) (x : string) :
  ~ In x l -> py_index l x = inl ValueError_index.
Proof.
  induction l as [| y r IH]; simpl; intros Hnotin.
  - reflexivity.
  - destruct (String.eqb_spec y x) as [Heq | _]; [tauto |].
    rewrite IH by tauto. reflexivity.
Qed.

Lemma py_index_error (l : list string) (x : string) (e : exn) :
  py_index l x = inl e -> e = ValueError_index.
Proof.
  revert e. induction l as [| y r IH]; simpl; intros e H.
  - inversion H. reflexivity.
  - destruct (String.eqb y x); [discriminate |].
    destruct (py_index r x) as [e' |]; simpl in H; [| discriminate].
    inversion H; subst. now apply IH.
Qed.

Lemma len_length (ds : UWDataset) : len ds = List.length (annotations ds).
Proof. reflexivity. Qed.

Section RetrievalProperties.

Variable cv : ImagePipeline.

(** [__getitem__] read as one pass: look the record up, load its
    image(s), look its label up. *)
Lemma get_unfold (ds : UWDataset) (index : Z) :
  get cv ds index
  = (a <- py_getitem (annotations ds) index ;;
     t <- decoded cv (train ds) (transforms ds) a ;;
     i <- py_index (list_classes ds) (label a) ;;
     ret (t, i)).
Proof.
  unfold get, decoded, __getitem__, mbind, attr, lift.
  simpl. destruct (train ds); simpl.
  - destruct (py_getitem (annotations ds) index) as [e | a]; simpl; [reflexivity |].
    destruct (image_path a) as [path | paths]; simpl; [| reflexivity].
    destruct (imread_rgb cv path) as [e | img]; simpl; [reflexivity |].
    destruct (py_index (list_classes ds) (label a)); reflexivity.
  - destruct (py_getitem (annotations ds) index) as [e | a]; simpl; [reflexivity |].
    destruct (mapM _ _) as [e | images]; simpl; [reflexivity |].
    destruct (torch_stack cv images) as [e | t]; simpl; [reflexivity |].
    destruct (py_index (list_classes ds) (label a)); reflexivity.
Qed.

Lemma getitem_keeps_self (ds : UWDataset) (index : Z) :
  snd (__getitem__ cv index ds) = ds.
Proof.
  unfold __getitem__, mbind, attr, lift.
  simpl. destruct (train ds); simpl.
  - destruct (py_getitem (annotations ds) index) as [e | a]; simpl; [reflexivity |].
    destruct (image_path a) as [path | paths]; simpl; [| reflexivity].
    destruct (imread_rgb cv path) as [e | img]; simpl; [reflexivity |].
    destruct (py_index (list_classes ds) (label a)); reflexivity.
  - destruct (py_getitem (annotations ds) index) as [e | a]; simpl; [reflexivity |].
    destruct (mapM _ _) as [e | images]; simpl; [reflexivity |].
    destruct (torch_stack cv images) as [e | t]; simpl; [reflexivity |].
    destruct (py_index (list_classes ds) (label a)); reflexivity.
Qed.

Lemma mapM_imread_error (tf : pipeline) (paths : list string) (e : exn) :
  mapM (fun path => img <- imread_rgb cv path ;;
                    ret (apply_transforms cv tf img)) paths = inl e ->
  e = TypeError.
Proof.
  revert e. induction paths as [| p ps IH]; simpl; intros e H.
  - discriminate.
  - unfold imread_rgb in H at 1. destruct (imread cv p); simpl in H.
    + destruct (mapM _ ps) as [e' |]; simpl in H; [| discriminate].
      inversion H; subst. now apply IH.
    + inversion H. reflexivity.
Qed.

Lemma decoded_error (is_train : bool) (tf : pipeline) (a : annotation_t) (e : exn) :
  decoded cv is_train tf a = inl e -> ImageDecodeError e.
Proof.
  unfold decoded, ImageDecodeError. destruct is_train.
  - destruct (image_path a) as [path | paths]; simpl.
    + unfold imread_rgb. destruct (imread cv path); simpl; intros H; inversion H.
      now left.
    + intros H; inversion H. now left.
  - destruct (mapM _ _) as [e' | images] eqn:Hm; simpl.
    + intros H; inversion H; subst. left. eapply mapM_imread_error, Hm.
    + destruct images; simpl; intros H; inversion H. now right.
Qed.

(** C7, as the code has it.  When the label of the record at the
    requested index is not in the class order, retrieval never returns
    an item, in either mode: it raises the label error when the record's
    image(s) load (decode, transform and, in eval mode, stack), and
    otherwise the image error, which is raised first. *)
Theorem absent_label_fails_after_images_load
  (ds : UWDataset) (index : Z) (a : annotation_t) :
  py_getitem (annotations ds) index = inr a ->
  ~ In (label a) (list_classes ds) ->
  match decoded cv (train ds) (transforms ds) a with
  | inr _ => exists e, get cv ds index = inl e /\ LabelNotFoundError e
  | inl e' => get cv ds index = inl e' /\ ImageDecodeError e'
  end.
Proof.
  intros Ha Hnotin. rewrite get_unfold, Ha. cbn [bind].
  destruct (decoded cv (train ds) (transforms ds) a) as [e' | t] eqn:Hd; cbn [bind].
  - split; [reflexivity | eapply decoded_error, Hd].
  - rewrite (py_index_absent _ _ Hnotin). exists ValueError_index.
    split; reflexivity.
Qed.

Lemma get_out_of_range (ds : UWDataset) (index : Z) :
  (Z.of_nat (len ds) <= index)%Z -> get cv ds index = inl IndexError.
Proof.
  rewrite len_length. intros H. rewrite get_unfold.
  rewrite (py_getitem_out_of_range _ _ H). reflexivity.
Qed.

Lemma get_in_range (ds : UWDataset) (index : Z) :
  (0 <= index < Z.of_nat (len ds))%Z ->
  (exists a, nth_error (annotations ds) (Z.to_nat index) = Some a
             /\ py_getitem (annotations ds) index = inr a)
  /\ get cv ds index <> inl IndexError.
Proof.
  rewrite len_length. intros H. rewrite get_unfold.
  destruct (py_getitem_in_range _ _ H) as (a & Hn & Ha).
  split; [exists a; split; assumption |].
  rewrite Ha. cbn [bind].
  destruct (decoded cv (train ds) (transforms ds) a) as [e | t] eqn:Hd; cbn [bind].
  - apply decoded_error in Hd. destruct Hd; subst; discriminate.
  - destruct (py_index (list_classes ds) (label a)) as [e | i] eqn:Hi; cbn [bind].
    + apply py_index_error in Hi. subst. discriminate.
    + discriminate.
Qed.

(** C8.  An index equal to the length of the dataset, or larger, raises
    IndexError; an index from 0 up to the length (excluded) finds its
    record and never raises IndexError. *)
Theorem get_index_bounds (ds : UWDataset) (index : Z) :
  ((Z.of_nat (len ds) <= index)%Z -> get cv ds index = inl IndexError)
  /\ ((0 <= index < Z.of_nat (len ds))%Z ->
      (exists a, nth_error (annotations ds) (Z.to_nat index) = Some a
                 /\ py_getitem (annotations ds) index = inr a)
      /\ get cv ds index <> inl IndexError).
Proof.
  split; [apply get_out_of_range | apply get_in_range].
Qed.

(** C9.  Neither [__len__] nor [__getitem__] changes the object: after
    any sequence of such calls, returning or raising, the dataset (its
    records in order, its mode, pipeline and class order) is the one the
    calls started from, and so it is after every call of the sequence. *)
Theorem calls_do_not_mutate (cs : list call) (ds : UWDataset) :
  run_calls cv cs ds = ds
  /\ forall n,
       annotations (run_calls cv (firstn n cs) ds) = annotations ds.
Proof.
  assert (Hrun : forall l s, run_calls cv l s = s).
  { induction l as [| c l IH]; intros s; simpl.
    - reflexivity.
    - unfold run_calls in *. simpl. rewrite <- (IH s) at 2. f_equal.
      destruct c as [| index]; simpl.
      + reflexivity.
      + apply getitem_keeps_self. }
  split; [apply Hrun |]. intros n. now rewrite Hrun.
Qed.

(** C10, as the code has it.  A negative index counts from the end: for
    [1 <= k <= n], with [n] the length of the dataset, index [-k] finds
    the record at position [n - k], retrieval at [-k] is never an
    IndexError, and it gives exactly what retrieval at [n - k] gives,
    the same item or the same exception. *)
Theorem negative_index_counts_from_end (ds : UWDataset) (k : Z) :
  (1 <= k <= Z.of_nat (len ds))%Z ->
  get cv ds (- k) = get cv ds (Z.of_nat (len ds) - k)
  /\ (exists a, nth_error (annotations ds) (Z.to_nat (Z.of_nat (len ds) - k)) = Some a
                /\ py_getitem (annotations ds) (- k) = inr a)
  /\ get cv ds (- k) <> inl IndexError.
Proof.
  intros H.
  assert (Heq : get cv ds (- k) = get cv ds (Z.of_nat (len ds) - k)).
  { rewrite !get_unfold, len_length. rewrite len_length in H.
    now rewrite py_getitem_negative. }
  destruct (get_in_range ds (Z.of_nat (len ds) - k)) as ((a & Hn & Ha) & Hne);
    [lia |].
  split; [exact Heq |]. split.
  - exists a. split; [exact Hn |].
    rewrite len_length in *. now rewrite py_getitem_negative.
  - now rewrite Heq.
Qed.

End RetrievalProperties.

Lemma absent_label_fails_after_images_load_witness :
  exists ds g' a,
    __init__ nat Sample.shuffle Sample.fs ["data/s4"] Sample.classes true 0%nat
    = inr (ds, g')
    /\ py_getitem (annotations ds) 2 = inr a
    /\ ~ In (label a) (list_classes ds)
    /\ exists e,
         get Sample.cv ds 2 = inl e
         /\ LabelNotFoundError e.
Proof.
  eexists. eexists. eexists.
  split; [vm_compute; reflexivity |].
  split; [vm_compute; reflexivity |].
  assert (Hn : ~ In "crab" ["A"; "B"]) by (simpl; intuition discriminate).
  split; [exact Hn |].
  lazymatch goal with
  | |- exists e, get _ ?ds _ = _ /\ _ =>
      exact (absent_label_fails_after_images_load Sample.cv
               ds 2%Z
               {| image_path := Single "data/s4/01_0003.jpg"; label := "crab";
                  one_hot := [0%Z; 0%Z] |}
               eq_refl Hn)
  end.
Defined.

(** C7, as stated, fails: the last record of this train-mode dataset has a
    label outside the class order and a file that does not decode;
    retrieval raises the image error, not the label error. *)
Lemma absent_label_counterexample :
  exists ds g' a,
    __init__ nat Sample.shuffle Sample.fs ["data/s4"] Sample.classes true 0%nat
    = inr (ds, g')
    /\ py_getitem (annotations ds) 3 = inr a
    /\ ~ In (label a) (list_classes ds)
    /\ ~ (exists e,
            get Sample.cv ds 3 = inl e
            /\ LabelNotFoundError e).
Proof.
  eexists. eexists. eexists.
  split; [vm_compute; reflexivity |].
  split; [vm_compute; reflexivity |].
  split; [simpl; intuition discriminate |].
  intros (e & He & Hl). vm_compute in He. inversion He; subst.
  unfold LabelNotFoundError in Hl. discriminate.
Qed.

Lemma get_index_bounds_witness :
  exists ds g',
    __init__ nat Sample.shuffle Sample.fs Sample.split_list Sample.classes true 0%nat
    = inr (ds, g')
    /\ len ds = 7%nat
    /\ get Sample.cv ds 7 = inl IndexError
    /\ get Sample.cv ds 0 <> inl IndexError.
Proof.
  eexists. eexists.
  split; [vm_compute; reflexivity |].
  split; [reflexivity |].
  split.
  - apply (proj1 (get_index_bounds Sample.cv _ 7%Z)).
    vm_compute. discriminate.
  - apply (proj2 (get_index_bounds Sample.cv _ 0%Z)).
    vm_compute. split; [discriminate | reflexivity].
Defined.

Lemma negative_index_counts_from_end_witness :
  exists ds g',
    __init__ nat Sample.shuffle Sample.fs Sample.split_list Sample.classes true 0%nat
    = inr (ds, g')
    /\ len ds = 7%nat
    /\ get Sample.cv ds (- 1)
       = get Sample.cv ds (Z.of_nat (len ds) - 1)
    /\ (exists a,
           nth_error (annotations ds) (Z.to_nat (Z.of_nat (len ds) - 1)) = Some a
           /\ py_getitem (annotations ds) (- 1) = inr a)
    /\ get Sample.cv ds (- 1) <> inl IndexError.
Proof.
  eexists. eexists.
  split; [vm_compute; reflexivity |].
  split; [reflexivity |].
  apply (negative_index_counts_from_end Sample.cv _ 1%Z).
  vm_compute. split; discriminate.
Defined.

(** C10, as stated, fails: this train-mode dataset has four records, and
    retrieval at index -1 does not return an item (the file of its last
    record does not decode). *)
Lemma negative_index_counterexample :
  exists ds g',
    __init__ nat Sample.shuffle Sample.fs ["data/s4"] Sample.classes true 0%nat
    = inr (ds, g')
    /\ (1 <= len ds)%nat
    /\ ~ (exists item,
            get Sample.cv ds (- 1) = inr item
            /\ get Sample.cv ds (Z.of_nat (len ds) - 1)
               = inr item).
Proof.
  eexists. eexists.
  split; [vm_compute; reflexivity |].
  split; [vm_compute; lia |].
  intros (item & H1 & _). vm_compute in H1. discriminate.
Qed.

(** * Further properties of the construction *)

(** ** The grouping by label *)

Lemma group_of_annot_append (annot : annot_t) (lbl k : string) (d : annot_dict) :
  group_of (annot_append annot lbl d) k
  = if String.eqb lbl k then (group_of annot k ++ [d])%list else group_of annot k.
Proof.
  induction annot as [| [k0 l0] rest IH]; simpl.
  - destruct (String.eqb lbl k); reflexivity.
  - destruct (String.eqb_spec k0 lbl) as [Heq | Hne]; simpl.
    + subst k0. destruct (String.eqb lbl k); reflexivity.
    + destruct (String.eqb_spec k0 k) as [Heq' | Hne'].
      * subst k0. destruct (String.eqb_spec lbl k); [congruence | reflexivity].
      * exact IH.
Qed.

Lemma keys_annot_append (annot : annot_t) (lbl : string) (d : annot_dict) :
  map fst (annot_append annot lbl d) = add_key (map fst annot) lbl.
Proof.
  unfold add_key. induction annot as [| [k0 l0] rest IH]; simpl.
  - reflexivity.
  - rewrite (String.eqb_sym lbl k0).
    destruct (String.eqb k0 lbl); simpl.
    + reflexivity.
    + rewrite IH. destruct (existsb (String.eqb lbl) (map fst rest)); reflexivity.
Qed.

Lemma group_of_in (annot : annot_t) (lbl : string) (l : list annot_dict) :
  NoDup (map fst annot) -> In (lbl, l) annot -> group_of annot lbl = l.
Proof.
  induction annot as [| [k0 l0] rest IH]; simpl; intros Hnd Hin.
  - contradiction.
  - inversion Hnd as [| ? ? Hnotin Hrest]; subst.
    destruct Hin as [Heq | Hin].
    + inversion Heq; subst. now rewrite String.eqb_refl.
    + destruct (String.eqb_spec k0 lbl) as [Heq | _]; [| auto].
      subst k0. exfalso. apply Hnotin.
      apply in_map_iff. exists (lbl, l). split; [reflexivity | exact Hin].
Qed.

Lemma group_of_nonempty_in (annot : annot_t) (lbl : string) :
  group_of annot lbl <> [] -> In (lbl, group_of annot lbl) annot.
Proof.
  induction annot as [| [k0 l0] rest IH]; simpl; intros Hne.
  - congruence.
  - destruct (String.eqb_spec k0 lbl) as [Heq | _].
    + subst k0. now left.
    + right. apply IH, Hne.
Qed.

Section Grouping.

Variable fs : FileSystem.
Variable classes : list string.

Lemma add_rows_groups (split : string) (rows : list Row) (annot : annot_t) :
  let annot' := fold_left (add_row split classes) rows annot in
  (forall lbl,
      group_of annot' lbl
      = (group_of annot lbl
         ++ map snd (filter (fun p => String.eqb (fst p) lbl)
                            (map (fun r => (annotation r, row_dict split classes r))
                                 rows)))%list)
  /\ map fst annot' = fold_left add_key (map annotation rows) (map fst annot).
Proof.
  revert annot. induction rows as [| r rows IH]; intros annot; simpl.
  - split; [intros lbl; now rewrite app_nil_r | reflexivity].
  - destruct (IH (add_row split classes annot r)) as (Hg & Hk). split.
    + intros lbl. rewrite Hg. unfold add_row. rewrite group_of_annot_append.
      destruct (String.eqb (annotation r) lbl); simpl.
      * now rewrite <- app_assoc.
      * reflexivity.
    + rewrite Hk. unfold add_row. now rewrite keys_annot_append.
Qed.

Lemma read_splits_groups (split_list : list string) (annot annot' : annot_t) :
  read_splits fs classes split_list annot = inr annot' ->
  (forall lbl,
      group_of annot' lbl
      = (group_of annot lbl ++ rows_of_label fs classes split_list lbl)%list)
  /\ map fst annot'
     = fold_left add_key (map fst (labelled_rows fs classes split_list))
                 (map fst annot).
Proof.
  unfold rows_of_label.
  revert annot. induction split_list as [| split rest IH]; intros annot; simpl.
  - intros H. inversion H; subst. split; [intros lbl; now rewrite app_nil_r | reflexivity].
  - intros H. apply bind_inr in H. destruct H as (f & Hf & Hrest).
    pose proof (annotation_file_inr fs _ _ Hf) as Hglob.
    destruct (IH _ Hrest) as (Hg & Hk).
    destruct (add_rows_groups split (read_csv fs f) annot) as (Hg0 & Hk0).
    assert (Hrows : split_rows fs split = read_csv fs f).
    { unfold split_rows. now rewrite Hglob. }
    split.
    + intros lbl. rewrite Hg, Hg0, Hrows.
      rewrite filter_app, map_app, app_assoc. reflexivity.
    + rewrite Hk, Hk0, Hrows, map_app, fold_left_app.
      rewrite !map_map. reflexivity.
Qed.

(** X1.  The grouping gathers, for every label found in the spreadsheets,
    exactly the rows that carry it, in split-then-row order: [(lbl, l)] is
    a group of [annot] if and only if [l] is the non-empty list of the
    dictionaries of the rows annotated [lbl]. *)
Theorem groups_are_rows_by_label
  (split_list : list string) (annot : annot_t) (lbl : string) (l : list annot_dict) :
  read_splits fs classes split_list [] = inr annot ->
  (In (lbl, l) annot
   <-> l <> [] /\ l = rows_of_label fs classes split_list lbl).
Proof.
  intros Hread.
  destruct (read_splits_invariants fs classes _ _ _ Hread) as (_ & Hnd & Hne & _).
  specialize (Hnd (NoDup_nil _)). specialize (Hne (Forall_nil _)).
  destruct (read_splits_groups _ _ _ Hread) as (Hg & _).
  simpl in Hg. split.
  - intros Hin. split.
    + unfold groups_nonempty in Hne. rewrite Forall_forall in Hne.
      apply (Hne (lbl, l) Hin).
    + rewrite <- Hg. symmetry. now apply group_of_in.
  - intros (Hl & Heq). rewrite <- Hg in Heq. subst l.
    now apply group_of_nonempty_in.
Qed.

(** X2.  The groups are keyed by distinct labels, listed in the order in
    which the labels first occur in the rows (split after split, row after
    row); labels are taken as found, whether or not they are classes. *)
Theorem group_keys_in_first_occurrence_order
  (split_list : list string) (annot : annot_t) :
  read_splits fs classes split_list [] = inr annot ->
  map fst annot
  = first_occurrences (map fst (labelled_rows fs classes split_list))
  /\ NoDup (map fst annot).
Proof.
  intros Hread.
  destruct (read_splits_invariants fs classes _ _ _ Hread) as (_ & Hnd & _ & _).
  destruct (read_splits_groups _ _ _ Hread) as (_ & Hk).
  split; [exact Hk | exact (Hnd (NoDup_nil _))].
Qed.

End Grouping.

Lemma groups_are_rows_by_label_witness :
  exists annot,
    read_splits Sample.fs Sample.classes ["data/s1"; "data/s4"] [] = inr annot
    /\ map (fun kv => (fst kv, List.length (snd kv))) annot
       = [("A", 2%nat); ("B", 4%nat); ("crab", 2%nat)]
    /\ forall lbl l,
         In (lbl, l) annot
         <-> l <> []
             /\ l = rows_of_label Sample.fs Sample.classes ["data/s1"; "data/s4"] lbl.
Proof.
  eexists. split; [vm_compute; reflexivity |].
  split; [reflexivity |].
  intros lbl l.
  apply (groups_are_rows_by_label Sample.fs Sample.classes ["data/s1"; "data/s4"]).
  vm_compute. reflexivity.
Defined.

Lemma group_keys_in_first_occurrence_order_witness :
  exists annot,
    read_splits Sample.fs Sample.classes ["data/s1"; "data/s4"] [] = inr annot
    /\ map fst annot = ["A"; "B"; "crab"]
    /\ map fst annot
       = first_occurrences
           (map fst (labelled_rows Sample.fs Sample.classes ["data/s1"; "data/s4"]))
    /\ NoDup (map fst annot).
Proof.
  eexists. split; [vm_compute; reflexivity |].
  split; [reflexivity |].
  apply (group_keys_in_first_occurrence_order Sample.fs Sample.classes
           ["data/s1"; "data/s4"]).
  vm_compute. reflexivity.
Defined.

(** ** File name stems and image roots *)

Lemma string_length_append (a b : string) :
  String.length (a ++ b) = (String.length a + String.length b)%nat.
Proof. induction a as [| c a IH]; simpl; [reflexivity | now rewrite IH]. Qed.

Lemma string_append_assoc (a b c : string) : ((a ++ b) ++ c = a ++ (b ++ c))%string.
Proof. induction a as [| x a IH]; simpl; [reflexivity | now rewrite IH]. Qed.

Lemma string_append_inj_l (p a b : string) : (p ++ a = p ++ b)%string -> a = b.
Proof.
  induction p as [| c p IH]; simpl; intros H; [exact H |].
  inversion H. auto.
Qed.

Lemma zeros_length (n : nat) : String.length (zeros n) = n.
Proof. induction n as [| n IH]; simpl; [reflexivity | now rewrite IH]. Qed.

Lemma uint_of_string_zeros (k : nat) (s : string) (d : Decimal.uint) :
  NilEmpty.uint_of_string s = Some d ->
  exists d', NilEmpty.uint_of_string (zeros k ++ s) = Some d'
             /\ N.of_uint d' = N.of_uint d.
Proof.
  intros Hs. induction k as [| k (d' & Hd' & Heq)]; simpl.
  - exists d. split; [exact Hs | reflexivity].
  - rewrite Hd'. exists (Decimal.D0 d'). split; [reflexivity | exact Heq].
Qed.

Lemma all_chars_append (p : ascii -> bool) (a b : string) :
  all_chars p (a ++ b) = all_chars p a && all_chars p b.
Proof.
  induction a as [| c a IH]; simpl; [reflexivity |].
  now rewrite IH, andb_assoc.
Qed.

Lemma all_chars_zeros (n : nat) : all_chars number_char (zeros n) = true.
Proof. induction n as [| n IH]; simpl; [reflexivity | exact IH]. Qed.

Lemma all_chars_string_of_uint (d : Decimal.uint) :
  all_chars number_char (NilEmpty.string_of_uint d) = true.
Proof. induction d; simpl; auto. Qed.

Lemma all_chars_format (w : nat) (z : Z) :
  all_chars number_char (format_0d w z) = true.
Proof.
  unfold format_0d, digits.
  rewrite !all_chars_append, all_chars_zeros, all_chars_string_of_uint.
  destruct (z <? 0)%Z; reflexivity.
Qed.

Lemma string_of_uint_nonempty (n : N) :
  exists c r, NilEmpty.string_of_uint (N.to_uint n) = String c r.
Proof.
  assert (H : N.to_uint n <> Decimal.Nil).
  { destruct n as [| p]; simpl; [discriminate |].
    unfold Pos.to_uint. intros Hnil.
    pose proof (DecimalPos.Unsigned.of_to p) as Hp.
    unfold Pos.to_uint in Hp. rewrite Hnil in Hp. discriminate. }
  destruct (N.to_uint n); try congruence; simpl; eexists; eexists; reflexivity.
Qed.

Lemma read_int_format (w : nat) (z : Z) : read_int (format_0d w z) = Some z.
Proof.
  unfold format_0d, digits.
  pose proof (NilEmpty.usu (N.to_uint (Z.abs_N z))) as Hus.
  destruct (Z.ltb_spec z 0) as [Hneg | Hpos].
  - simpl.
    destruct (uint_of_string_zeros (w - 1 - String.length
                (NilEmpty.string_of_uint (N.to_uint (Z.abs_N z)))) _ _ Hus)
      as (d' & Hd' & Heq).
    rewrite Hd'. simpl. rewrite Heq, DecimalN.Unsigned.of_to. f_equal. lia.
  - simpl append at 1.
    destruct (uint_of_string_zeros (w - 0 - String.length
                (NilEmpty.string_of_uint (N.to_uint (Z.abs_N z)))) _ _ Hus)
      as (d' & Hd' & Heq).
    pose proof (all_chars_format w z) as Hch. unfold format_0d, digits in Hch.
    destruct (Z.ltb_spec z 0) as [Hneg | _]; [lia |]. simpl append in Hch at 1.
    simpl String.length at 1.
    destruct (zeros _ ++ _)%string as [| c r] eqn:Hs.
    + exfalso.
      destruct (string_of_uint_nonempty (Z.abs_N z)) as (c & r & Hnz).
      apply (f_equal String.length) in Hs.
      rewrite string_length_append, Hnz in Hs. simpl in Hs. lia.
    + unfold read_int.
      destruct (Ascii.eqb_spec c "-"%char) as [Hc | _].
      * subst c. simpl in Hd'.
        destruct (NilEmpty.uint_of_string r); simpl in Hd'; discriminate.
      * rewrite Hd'. simpl. rewrite Heq, DecimalN.Unsigned.of_to. f_equal. lia.
Qed.

Lemma format_0d_inj (w : nat) (a b : Z) : format_0d w a = format_0d w b -> a = b.
Proof.
  intros H. apply (f_equal read_int) in H.
  rewrite !read_int_format in H. now inversion H.
Qed.

(** X3.  The zero-padded format never truncates and loses nothing: the
    text has at least [w] characters and reads back as the number it was
    made from, so two numbers have the same text only if they are equal. *)
Theorem format_0d_pads_and_reads_back (w : nat) (z : Z) :
  (w <= String.length (format_0d w z))%nat
  /\ read_int (format_0d w z) = Some z
  /\ forall z', format_0d w z' = format_0d w z -> z' = z.
Proof.
  split; [| split].
  - unfold format_0d. rewrite !string_length_append, zeros_length. lia.
  - apply read_int_format.
  - intros z'. apply format_0d_inj.
Qed.

Lemma all_chars_weaken (p q : ascii -> bool) (s : string) :
  (forall c, p c = true -> q c = true) ->
  all_chars p s = true -> all_chars q s = true.
Proof.
  intros Hpq. induction s as [| c s IH]; simpl; [reflexivity |].
  rewrite !andb_true_iff. intros [Hc Hs]. split; auto.
Qed.

Lemma number_char_not_underscore (c : ascii) :
  number_char c = true -> Ascii.eqb c "_"%char = false.
Proof.
  destruct (Ascii.eqb_spec c "_"%char) as [-> | _]; [| reflexivity].
  intros H. vm_compute in H. discriminate.
Qed.

Lemma number_char_not_sep (c : ascii) :
  number_char c = true -> Ascii.eqb c "/"%char = false.
Proof.
  destruct (Ascii.eqb_spec c "/"%char) as [-> | _]; [| reflexivity].
  intros H. vm_compute in H. discriminate.
Qed.

Lemma cut_underscore_append (a b : string) :
  all_chars number_char a = true ->
  cut_underscore (a ++ "_" ++ b) = (a, b).
Proof.
  change ("_" ++ b)%string with (String "_"%char b).
  induction a as [| c a IH]; simpl; [reflexivity |].
  rewrite andb_true_iff. intros [Hc Ha].
  rewrite (number_char_not_underscore c Hc), (IH Ha). reflexivity.
Qed.

Lemma row_stem_inj (r1 r2 : Row) :
  row_stem r1 = row_stem r2 -> id_rov r1 = id_rov r2 /\ img_id r1 = img_id r2.
Proof.
  unfold row_stem. intros H. apply (f_equal cut_underscore) in H.
  rewrite !cut_underscore_append in H by apply all_chars_format.
  inversion H as [[H2 H4]].
  split; eapply format_0d_inj; eassumption.
Qed.

Lemma row_stem_not_absolute (r : Row) : startswith_sep (row_stem r) = false.
Proof.
  unfold row_stem.
  pose proof (all_chars_format 2 (id_rov r)) as H.
  destruct (format_0d 2 (id_rov r)) as [| c s]; simpl; [reflexivity |].
  simpl in H. rewrite andb_true_iff in H. destruct H as [Hc _].
  now apply number_char_not_sep.
Qed.

(** The directory part [os.path.join] puts before a relative name. *)
Lemma join_relative (a b : string) :
  startswith_sep b = false ->
  exists dir, join a b = (dir ++ b)%string
              /\ (dir = a \/ dir = (a ++ "/")%string).
Proof.
  intros Hb. unfold join. rewrite Hb.
  destruct ((String.length a =? 0)%nat || endswith_sep a).
  - exists a. split; [reflexivity | now left].
  - exists (a ++ "/")%string. split; [now rewrite string_append_assoc | now right].
Qed.

Lemma join_dir_same (a b b' : string) :
  startswith_sep b = false -> startswith_sep b' = false ->
  exists dir, join a b = (dir ++ b)%string /\ join a b' = (dir ++ b')%string
              /\ (dir = a \/ dir = (a ++ "/")%string).
Proof.
  intros Hb Hb'. unfold join. rewrite Hb, Hb'.
  destruct ((String.length a =? 0)%nat || endswith_sep a).
  - exists a. repeat split; now left.
  - exists (a ++ "/")%string. rewrite !string_append_assoc. repeat split; now right.
Qed.

Lemma prefix_append (a b : string) : String.prefix a (a ++ b) = true.
Proof.
  induction a as [| c a IH]; simpl.
  - now destruct b.
  - destruct (ascii_dec c c); [exact IH | congruence].
Qed.

Lemma prefix_append_cancel (p a b : string) :
  String.prefix (p ++ a) (p ++ b) = String.prefix a b.
Proof.
  induction p as [| c p IH]; simpl; [reflexivity |].
  destruct (ascii_dec c c); [exact IH | congruence].
Qed.

Lemma prefix_same_length (a b s : string) :
  String.length a = String.length b ->
  String.prefix a (b ++ s) = true -> a = b.
Proof.
  revert b. induction a as [| c a IH]; intros [| c' b]; simpl; intros Hlen H;
    try discriminate; [reflexivity |].
  destruct (ascii_dec c c'); [| discriminate].
  subst c'. f_equal. apply IH; [now inversion Hlen | exact H].
Qed.

(** X4.  Within a split, the image root of a row lies under the split
    directory and identifies the row's pair of numbers: two rows have the
    same root exactly when their [id_rov] and [img_id] are the same. *)
Theorem image_root_identifies_ids
  (split : string) (classes classes' : list string) (r1 r2 : Row) :
  String.prefix split (image_root (row_dict split classes r1)) = true
  /\ (image_root (row_dict split classes r1) = image_root (row_dict split classes' r2)
      <-> id_rov r1 = id_rov r2 /\ img_id r1 = img_id r2).
Proof.
  change (image_root (row_dict split classes r1)) with (join split (row_stem r1)).
  change (image_root (row_dict split classes' r2)) with (join split (row_stem r2)).
  destruct (join_dir_same split _ _ (row_stem_not_absolute r1) (row_stem_not_absolute r2))
    as (dir & H1 & H2 & Hdir).
  rewrite H1, H2. split.
  - destruct Hdir as [-> | ->].
    + apply prefix_append.
    + rewrite string_append_assoc. apply prefix_append.
  - split.
    + intros H. apply string_append_inj_l in H. now apply row_stem_inj.
    + intros [Ha Hb]. unfold row_stem. now rewrite Ha, Hb.
Qed.

Lemma range_forallb (P : Z -> bool) (n : nat) :
  forallb (fun k => P (Z.of_nat k)) (seq 0 n) = true ->
  forall z, (0 <= z < Z.of_nat n)%Z -> P z = true.
Proof.
  intros H z Hz. rewrite forallb_forall in H.
  specialize (H (Z.to_nat z)). rewrite Z2Nat.id in H by lia.
  apply H. apply in_seq. lia.
Qed.

Lemma row_stem_length (r : Row) :
  ids_in_range r -> String.length (row_stem r) = 7%nat.
Proof.
  intros [Hrov Himg]. unfold row_stem. rewrite !string_length_append.
  assert (H2 : (String.length (format_0d 2 (id_rov r)) =? 2)%nat = true).
  { apply (range_forallb (fun z => (String.length (format_0d 2 z) =? 2)%nat) 100);
      [vm_compute; reflexivity | exact Hrov]. }
  assert (H4 : (String.length (format_0d 4 (img_id r)) =? 4)%nat = true).
  { apply (range_forallb (fun z => (String.length (format_0d 4 z) =? 4)%nat)
             (100 * 100));
      [vm_compute; reflexivity | lia]. }
  apply Nat.eqb_eq in H2, H4. rewrite H2, H4. reflexivity.
Qed.

(** X5.  For rows whose numbers fit the format ([0 <= id_rov < 100],
    [0 <= img_id < 10000]) a root is never the beginning of a name built
    on the root of another row of the split: the root of one row is a
    prefix of another row's root followed by any suffix only when both
    rows have the same [id_rov] and [img_id]. *)
Theorem image_roots_prefix_free
  (split : string) (classes classes' : list string) (r1 r2 : Row) (suffix : string) :
  ids_in_range r1 -> ids_in_range r2 ->
  String.prefix (image_root (row_dict split classes r1))
                (image_root (row_dict split classes' r2) ++ suffix) = true ->
  id_rov r1 = id_rov r2 /\ img_id r1 = img_id r2.
Proof.
  intros Hr1 Hr2.
  change (image_root (row_dict split classes r1)) with (join split (row_stem r1)).
  change (image_root (row_dict split classes' r2)) with (join split (row_stem r2)).
  destruct (join_dir_same split _ _ (row_stem_not_absolute r1) (row_stem_not_absolute r2))
    as (dir & H1 & H2 & _).
  rewrite H1, H2, string_append_assoc, prefix_append_cancel. intros Hp.
  apply row_stem_inj. eapply prefix_same_length; [| exact Hp].
  now rewrite !row_stem_length.
Qed.

Lemma image_roots_prefix_free_witness :
  ids_in_range (Sample.row "A" 1 1)
  /\ ids_in_range (Sample.row "B" 1 1)
  /\ String.prefix (image_root (row_dict "data/s1" Sample.classes (Sample.row "A" 1 1)))
                   (image_root (row_dict "data/s1" Sample.classes (Sample.row "B" 1 1))
                    ++ "_a.jpg") = true
  /\ id_rov (Sample.row "A" 1 1) = id_rov (Sample.row "B" 1 1)
  /\ img_id (Sample.row "A" 1 1) = img_id (Sample.row "B" 1 1).
Proof.
  assert (H1 : ids_in_range (Sample.row "A" 1 1)) by (unfold ids_in_range; simpl; lia).
  assert (H2 : ids_in_range (Sample.row "B" 1 1)) by (unfold ids_in_range; simpl; lia).
  assert (Hp : String.prefix
                 (image_root (row_dict "data/s1" Sample.classes (Sample.row "A" 1 1)))
                 (image_root (row_dict "data/s1" Sample.classes (Sample.row "B" 1 1))
                  ++ "_a.jpg") = true) by (vm_compute; reflexivity).
  split; [exact H1 |]. split; [exact H2 |]. split; [exact Hp |].
  exact (image_roots_prefix_free "data/s1" Sample.classes Sample.classes
           (Sample.row "A" 1 1) (Sample.row "B" 1 1) "_a.jpg" H1 H2 Hp).
Defined.

(** ** What every constructed dataset holds *)

Lemma expand_groups_shape (fs : FileSystem) (m : nat) (groups : annot_t) (a : annotation_t) :
  In a (expand_groups fs m groups) -> exists path, image_path a = Single path.
Proof.
  unfold expand_groups. rewrite in_flat_map. intros (kv & _ & Ha).
  rewrite in_flat_map in Ha. destruct Ha as (d & _ & Ha).
  unfold train_records in Ha. rewrite in_map_iff in Ha.
  destruct Ha as (path & <- & _). exists path. reflexivity.
Qed.

Lemma test_annotations_shape (fs : FileSystem) (annot : annot_t) (a : annotation_t) :
  In a (test_annotations fs annot) ->
  exists paths, image_path a = Frames paths
                /\ Sorted (fun x y => String.leb x y = true) paths.
Proof.
  unfold test_annotations. rewrite in_flat_map. intros (kv & _ & Ha).
  rewrite in_map_iff in Ha. destruct Ha as (d & <- & _).
  exists (same_annot fs d). split; [reflexivity | apply sorted_Sorted].
Qed.

Lemma max_count_upper (annot : annot_t) (lbl : string) (l : list annot_dict) :
  In (lbl, l) annot -> (List.length l <= max_count annot)%nat.
Proof.
  unfold max_count. induction annot as [| kv rest IH]; simpl; intros Hin.
  - contradiction.
  - destruct Hin as [-> | Hin]; simpl; [lia |]. specialize (IH Hin). lia.
Qed.

Lemma in_emitted_entries_all (m : nat) (l : list annot_dict) (d : annot_dict) :
  (List.length l <= m)%nat -> In d l -> In d (emitted_entries m l).
Proof.
  intros Hle Hd. unfold emitted_entries. apply in_or_app. left.
  assert (Hn : List.length l <> 0%nat) by (destruct l; [contradiction | simpl; lia]).
  assert (Hrep : (1 <= m / List.length l)%nat).
  { apply Nat.div_le_lower_bound; lia. }
  destruct (m / List.length l)%nat as [| rep]; [lia |].
  simpl. apply in_or_app. now left.
Qed.

Lemma same_groups_in_fwd (annot groups : annot_t) (lbl : string) (l : list annot_dict) :
  same_groups annot groups -> In (lbl, l) annot ->
  exists l', In (lbl, l') groups /\ Permutation l l'.
Proof.
  induction 1 as [| [k l0] [k' s] annot groups [Hk Hp] _ IH]; simpl; intros Hin.
  - contradiction.
  - simpl in Hk, Hp. destruct Hin as [Heq | Hin].
    + inversion Heq; subst. exists s. split; [now left | exact Hp].
    + destruct (IH Hin) as (l' & Hl' & Hp'). exists l'. split; [now right | exact Hp'].
Qed.

Lemma same_groups_max_count (annot groups : annot_t) :
  same_groups annot groups -> max_count groups = max_count annot.
Proof.
  unfold max_count. induction 1 as [| kv kv' annot groups [_ Hp] _ IH]; simpl.
  - reflexivity.
  - now rewrite IH, (Permutation_length Hp).
Qed.

Lemma row_in_labelled_rows (fs : FileSystem) (classes split_list : list string)
  (split : string) (r : Row) :
  In split split_list -> In r (split_rows fs split) ->
  In (row_dict split classes r)
     (rows_of_label fs classes split_list (annotation r)).
Proof.
  intros Hs Hr. unfold rows_of_label, labelled_rows.
  apply in_map_iff. exists (annotation r, row_dict split classes r).
  split; [reflexivity |]. apply filter_In. split.
  - apply in_flat_map. exists split. split; [exact Hs |].
    apply in_map_iff. exists r. split; [reflexivity | exact Hr].
  - simpl. apply String.eqb_refl.
Qed.

Lemma row_in_group (fs : FileSystem) (classes split_list : list string)
  (annot : annot_t) (split : string) (r : Row) :
  read_splits fs classes split_list [] = inr annot ->
  In split split_list -> In r (split_rows fs split) ->
  exists l, In (annotation r, l) annot /\ In (row_dict split classes r) l.
Proof.
  intros Hread Hs Hr.
  destruct (read_splits_groups fs classes _ _ _ Hread) as (Hg & _).
  specialize (Hg (annotation r)). simpl in Hg.
  pose proof (row_in_labelled_rows fs classes split_list split r Hs Hr) as Hin.
  rewrite <- Hg in Hin.
  exists (group_of annot (annotation r)). split; [| exact Hin].
  apply group_of_nonempty_in. intros Hnil. rewrite Hnil in Hin. contradiction.
Qed.

Section DatasetContents.

Variable rng : Type.
Variable shuffle : rng -> list annot_dict -> list annot_dict * rng.
Hypothesis shuffle_perm : forall g l, Permutation l (fst (shuffle g l)).

(** X6.  A constructed dataset remembers its mode and class order, every
    record has one one-hot entry per class, and the shape of
    ['image_path'] follows the mode: a single path in train mode, a sorted
    list of paths in test mode. *)
Theorem records_fit_the_mode
  (fs : FileSystem) (split_list classes : list string)
  (is_train : bool) (g g' : rng) (ds : UWDataset) :
  __init__ rng shuffle fs split_list classes is_train g = inr (ds, g') ->
  train ds = is_train
  /\ list_classes ds = classes
  /\ transforms ds = (if is_train then TrainAugment else TestResize)
  /\ Forall (fun a =>
               List.length (one_hot a) = List.length classes
               /\ if is_train
                  then exists path, image_path a = Single path
                  else exists paths,
                      image_path a = Frames paths
                      /\ Sorted (fun x y => String.leb x y = true) paths)
            (annotations ds).
Proof.
  intros Hinit.
  destruct (init_records_all rng shuffle shuffle_perm
              (fun _ d => List.length (root_one_hot d) = List.length classes)
              _ _ _ _ _ _ _ Hinit) as (Hcl & Hall).
  { intros split r _ _. simpl. apply length_map. }
  rewrite Forall_forall in Hall.
  destruct is_train.
  - destruct (init_train_inr rng shuffle shuffle_perm _ _ _ _ _ _ Hinit)
      as (annot & _ & _ & Hds & _ & _).
    rewrite Hds in *. simpl in *. repeat split.
    rewrite Forall_forall. intros a Ha. split.
    + destruct (Hall a Ha) as (d & Hd & Ho). now rewrite Ho.
    + eapply expand_groups_shape, Ha.
  - destruct (init_test_inr rng shuffle _ _ _ _ _ _ Hinit)
      as (annot & _ & Hds & _ & _).
    rewrite Hds in *. simpl in *. repeat split.
    rewrite Forall_forall. intros a Ha. split.
    + destruct (Hall a Ha) as (d & Hd & Ho). now rewrite Ho.
    + eapply test_annotations_shape, Ha.
Qed.

(** X7.  Oversampling loses nothing: in train mode every file that
    matches the root of any row of any split is the path of a record that
    carries the row's annotation and class columns. *)
Theorem train_keeps_every_file
  (fs : FileSystem) (split_list classes : list string)
  (g g' : rng) (ds : UWDataset) (split : string) (r : Row) (path : string) :
  __init__ rng shuffle fs split_list classes true g = inr (ds, g') ->
  In split split_list ->
  In r (split_rows fs split) ->
  In path (glob fs (image_root (row_dict split classes r) ++ "*")) ->
  In {| image_path := Single path;
        label := annotation r;
        one_hot := map (cell r) classes |} (annotations ds).
Proof.
  intros Hinit Hs Hr Hpath.
  destruct (init_train_inr rng shuffle shuffle_perm _ _ _ _ _ _ Hinit)
    as (annot & Hread & _ & Hds & _ & _).
  destruct (row_in_group fs classes split_list annot split r Hread Hs Hr)
    as (l & Hl & Hd).
  pose proof (shuffle_all_same_groups rng shuffle shuffle_perm annot g) as Hsame.
  destruct (same_groups_in_fwd _ _ _ _ Hsame Hl) as (l' & Hl' & Hp).
  rewrite Hds. simpl. unfold expand_groups.
  apply in_flat_map. exists (annotation r, l'). split; [exact Hl' |].
  simpl. apply in_flat_map. exists (row_dict split classes r). split.
  - apply in_emitted_entries_all.
    + rewrite <- (same_groups_max_count _ _ Hsame).
      eapply max_count_upper, Hl'.
    + eapply Permutation_in; [exact Hp | exact Hd].
  - unfold train_records. apply in_map_iff. exists path. split; [reflexivity |].
    unfold same_annot. eapply Permutation_in; [apply sorted_Permutation | exact Hpath].
Qed.

(** X8.  In test mode every row of every split has its record, which
    carries the row's annotation, its class columns and the sorted list
    of the files matching its root, even when no file matches. *)
Theorem test_keeps_every_row
  (fs : FileSystem) (split_list classes : list string)
  (g g' : rng) (ds : UWDataset) (split : string) (r : Row) :
  __init__ rng shuffle fs split_list classes false g = inr (ds, g') ->
  In split split_list ->
  In r (split_rows fs split) ->
  In {| image_path :=
          Frames (sorted (glob fs (image_root (row_dict split classes r) ++ "*")));
        label := annotation r;
        one_hot := map (cell r) classes |} (annotations ds).
Proof.
  intros Hinit Hs Hr.
  destruct (init_test_inr rng shuffle _ _ _ _ _ _ Hinit)
    as (annot & Hread & Hds & _ & _).
  destruct (row_in_group fs classes split_list annot split r Hread Hs Hr)
    as (l & Hl & Hd).
  rewrite Hds. simpl. unfold test_annotations.
  apply in_flat_map. exists (annotation r, l). split; [exact Hl |].
  simpl. apply in_map_iff. exists (row_dict split classes r).
  split; [reflexivity | exact Hd].
Qed.

End DatasetContents.

Lemma records_fit_the_mode_witness :
  exists ds g',
    __init__ nat Sample.shuffle Sample.fs Sample.split_list Sample.classes true 0%nat
    = inr (ds, g')
    /\ train ds = true
    /\ list_classes ds = Sample.classes
    /\ transforms ds = TrainAugment
    /\ Forall (fun a =>
                 List.length (one_hot a) = List.length Sample.classes
                 /\ exists path, image_path a = Single path)
              (annotations ds).
Proof.
  eexists. eexists. split; [vm_compute; reflexivity |].
  eapply (records_fit_the_mode nat Sample.shuffle sample_shuffle_perm
            Sample.fs Sample.split_list Sample.classes true 0%nat).
  vm_compute. reflexivity.
Defined.

Lemma train_keeps_every_file_witness :
  exists ds g',
    __init__ nat Sample.shuffle Sample.fs Sample.split_list Sample.classes true 0%nat
    = inr (ds, g')
    /\ In {| image_path := Single "data/s1/01_0001_b.jpg";
             label := annotation (Sample.row "A" 1 1);
             one_hot := map (cell (Sample.row "A" 1 1)) Sample.classes |}
          (annotations ds).
Proof.
  eexists. eexists. split; [vm_compute; reflexivity |].
  eapply (train_keeps_every_file nat Sample.shuffle sample_shuffle_perm
            Sample.fs Sample.split_list Sample.classes 0%nat _ _
            "data/s1" (Sample.row "A" 1 1) "data/s1/01_0001_b.jpg").
  - vm_compute. reflexivity.
  - vm_compute. left. reflexivity.
  - vm_compute. left. reflexivity.
  - vm_compute. left. reflexivity.
Defined.

Lemma test_keeps_every_row_witness :
  exists ds g',
    __init__ nat Sample.shuffle Sample.fs ["data/s3"] Sample.classes false 0%nat
    = inr (ds, g')
    /\ In {| image_path :=
               Frames (sorted (glob Sample.fs
                                 (image_root (row_dict "data/s3" Sample.classes
                                                (Sample.row "A" 3 7)) ++ "*")));
             label := annotation (Sample.row "A" 3 7);
             one_hot := map (cell (Sample.row "A" 3 7)) Sample.classes |}
          (annotations ds).
Proof.
  eexists. eexists. split; [vm_compute; reflexivity |].
  eapply (test_keeps_every_row nat Sample.shuffle
            Sample.fs ["data/s3"] Sample.classes 0%nat _ _
            "data/s3" (Sample.row "A" 3 7)).
  - vm_compute. reflexivity.
  - vm_compute. left. reflexivity.
  - vm_compute. left. reflexivity.
Defined.

(** ** Class balance *)

Lemma list_sum_const {A : Type} (f : A -> nat) (c : nat) (l : list A) :
  (forall a, In a l -> f a = c) -> list_sum (map f l) = (List.length l * c)%nat.
Proof.
  induction l as [| a l IH]; simpl; intros H; [reflexivity |].
  rewrite H by now left. rewrite IH by (intros; apply H; now right). reflexivity.
Qed.

Lemma expand_groups_length (fs : FileSystem) (m : nat) (groups : annot_t) :
  List.length (expand_groups fs m groups)
  = list_sum (map (fun kv => list_sum (map (file_count fs)
                                           (emitted_entries m (snd kv)))) groups).
Proof.
  unfold expand_groups. rewrite length_flat_map_sum. f_equal.
  apply map_ext. intros kv. rewrite length_flat_map_sum. f_equal.
  apply map_ext. intros d. apply train_records_length.
Qed.

Lemma same_groups_length (annot groups : annot_t) :
  same_groups annot groups -> List.length groups = List.length annot.
Proof. induction 1; simpl; congruence. Qed.

Section Balance.

Variable rng : Type.
Variable shuffle : rng -> list annot_dict -> list annot_dict * rng.
Hypothesis shuffle_perm : forall g l, Permutation l (fst (shuffle g l)).

(** X9.  When every row has exactly one matching file, train mode builds
    a balanced dataset: every label found in the spreadsheets has exactly
    [max_count] records, and the dataset has [max_count] records per
    label in all. *)
Theorem train_balanced_when_one_file_per_row
  (fs : FileSystem) (split_list classes : list string)
  (g g' : rng) (ds : UWDataset) :
  __init__ rng shuffle fs split_list classes true g = inr (ds, g') ->
  one_file_per_row fs classes split_list = true ->
  exists annot,
    read_splits fs classes split_list [] = inr annot
    /\ Forall (fun kv : string * list annot_dict =>
                 count_label (fst kv) (annotations ds) = max_count annot) annot
    /\ len ds = (List.length annot * max_count annot)%nat.
Proof.
  intros Hinit Hone.
  destruct (init_train_inr rng shuffle shuffle_perm _ _ _ _ _ _ Hinit)
    as (annot & Hread & _ & Hds & _ & _).
  exists annot. split; [exact Hread |].
  pose proof (shuffle_all_same_groups rng shuffle shuffle_perm annot g) as Hsame.
  destruct (read_splits_invariants fs classes _ _ _ Hread) as (_ & Hnd & Hne & _).
  specialize (Hnd (NoDup_nil _)). specialize (Hne (Forall_nil _)).
  pose proof (same_groups_nonempty _ _ Hsame Hne) as Hne'.
  assert (HQ : annot_all (fun _ d => file_count fs d = 1%nat) annot).
  { apply (read_splits_all fs classes _ _ _ _ Hread); [intros ? ? ? [] |].
    intros split r Hs Hr. unfold one_file_per_row in Hone.
    rewrite forallb_forall in Hone. specialize (Hone split Hs).
    rewrite forallb_forall in Hone. apply Nat.eqb_eq. apply Hone, Hr. }
  assert (Hgroup : forall lbl l',
             In (lbl, l') (fst (shuffle_all rng shuffle annot g)) ->
             list_sum (map (file_count fs) (emitted_entries (max_count annot) l'))
             = max_count annot).
  { intros lbl l' Hl'.
    destruct (same_groups_in _ _ _ _ Hsame Hl') as (l & Hl & Hp).
    rewrite (list_sum_const (file_count fs) 1).
    - rewrite emitted_entries_length; [lia |].
      unfold groups_nonempty in Hne'. rewrite Forall_forall in Hne'.
      apply (Hne' (lbl, l') Hl').
    - intros d Hd. apply in_emitted_entries in Hd.
      apply (HQ lbl l d Hl). eapply Permutation_in; [symmetry; exact Hp | exact Hd]. }
  split.
  - rewrite Forall_forall. intros [lbl l] Hl. simpl.
    destruct (same_groups_in_fwd _ _ _ _ Hsame Hl) as (l' & Hl' & _).
    rewrite Hds. simpl.
    rewrite (count_label_expand fs _ lbl l').
    + eapply Hgroup, Hl'.
    + now rewrite <- (same_groups_keys _ _ Hsame).
    + exact Hl'.
  - rewrite Hds. unfold len. simpl. rewrite expand_groups_length.
    rewrite (list_sum_const _ (max_count annot)).
    + now rewrite (same_groups_length _ _ Hsame).
    + intros [lbl l'] Hl'. simpl. eapply Hgroup, Hl'.
Qed.

End Balance.

Lemma train_balanced_when_one_file_per_row_witness :
  exists ds g',
    __init__ nat Sample.shuffle Sample.fs ["data/s4"] Sample.classes true 0%nat
    = inr (ds, g')
    /\ len ds = 4%nat
    /\ exists annot,
         read_splits Sample.fs Sample.classes ["data/s4"] [] = inr annot
         /\ Forall (fun kv : string * list annot_dict =>
                      count_label (fst kv) (annotations ds) = max_count annot) annot
         /\ len ds = (List.length annot * max_count annot)%nat.
Proof.
  eexists. eexists. split; [vm_compute; reflexivity |].
  split; [reflexivity |].
  eapply (train_balanced_when_one_file_per_row nat Sample.shuffle sample_shuffle_perm
            Sample.fs ["data/s4"] Sample.classes 0%nat).
  - vm_compute. reflexivity.
  - vm_compute. reflexivity.
Defined.

(** * Further properties of retrieval *)

Lemma py_index_inr (l : list string) (x : string) (i : nat) :
  py_index l x = inr i
  <-> nth_error l i = Some x /\ forall j, (j < i)%nat -> nth_error l j <> Some x.
Proof.
  revert i. induction l as [| y r IH]; intros i; simpl.
  - split; [discriminate |]. intros [H _]. destruct i; discriminate.
  - destruct (String.eqb_spec y x) as [Heq | Hne].
    + subst y. split.
      * intros H. inversion H; subst. split; [reflexivity | intros j Hj; lia].
      * intros [Hn Hfirst]. destruct i as [| i]; [reflexivity |].
        exfalso. apply (Hfirst 0%nat); [lia | reflexivity].
    + split.
      * destruct (py_index r x) as [e | i0] eqn:Hi; simpl; [discriminate |].
        intros H. inversion H; subst. destruct (proj1 (IH i0) eq_refl) as [Hn Hfirst].
        split; [exact Hn |]. intros [| j] Hj; simpl; [congruence | apply Hfirst; lia].
      * intros [Hn Hfirst]. destruct i as [| i]; simpl in Hn; [congruence |].
        assert (Hi : py_index r x = inr i).
        { apply IH. split; [exact Hn |]. intros j Hj.
          apply (Hfirst (S j)). lia. }
        rewrite Hi. reflexivity.
Qed.

Lemma py_getitem_index_error {A : Type} (l : list A) (index : Z) :
  py_getitem l index = inl IndexError
  <-> (index < - Z.of_nat (List.length l) \/ Z.of_nat (List.length l) <= index)%Z.
Proof.
  split.
  - intros H.
    destruct (Z_lt_le_dec index (- Z.of_nat (List.length l))) as [Hlo | Hlo]; [now left |].
    destruct (Z_lt_le_dec index (Z.of_nat (List.length l))) as [Hhi | Hhi]; [| now right].
    exfalso. destruct (Z_lt_le_dec index 0) as [Hneg | Hpos].
    + assert (Hk : (1 <= - index <= Z.of_nat (List.length l))%Z) by lia.
      pose proof (py_getitem_negative l (- index) Hk) as Heq.
      rewrite Z.opp_involutive in Heq. rewrite Heq in H.
      destruct (py_getitem_in_range l (Z.of_nat (List.length l) - - index))
        as (a & _ & Ha); [lia |]. congruence.
    + destruct (py_getitem_in_range l index) as (a & _ & Ha); [lia |]. congruence.
  - intros [Hlo | Hhi]; [| now apply py_getitem_out_of_range].
    unfold py_getitem.
    destruct (Z.ltb_spec index 0); [| lia].
    destruct (Z.ltb_spec (index + Z.of_nat (List.length l)) 0); [reflexivity | lia].
Qed.

Lemma mapM_inr {A B : Type} (f : A -> result B) (l : list A) (bs : list B) :
  mapM f l = inr bs <-> Forall2 (fun a b => f a = inr b) l bs.
Proof.
  revert bs. induction l as [| a r IH]; intros bs; simpl.
  - split.
    + intros H. inversion H. constructor.
    + intros H. inversion H. reflexivity.
  - split.
    + destruct (f a) as [e | b] eqn:Hfa; simpl; [discriminate |].
      destruct (mapM f r) as [e | bs'] eqn:Hm; simpl; [discriminate |].
      intros H. inversion H; subst. constructor; [exact Hfa | now apply IH].
    + intros H. inversion H as [| ? b ? bs' Hfa Hrest]; subst.
      rewrite Hfa. simpl. apply IH in Hrest. rewrite Hrest. reflexivity.
Qed.

Section RetrievalFurther.

Variable cv : ImagePipeline.

(** X10.  The class index returned with an item stands for the record's
    label: it is a position of the class order, the class at that
    position is the label of the record at the requested index, and no
    earlier position holds that label. *)
Theorem get_returns_first_class_index
  (ds : UWDataset) (index : Z) (t : tensor cv) (i : nat) :
  get cv ds index = inr (t, i) ->
  exists a,
    py_getitem (annotations ds) index = inr a
    /\ nth_error (list_classes ds) i = Some (label a)
    /\ (i < List.length (list_classes ds))%nat
    /\ forall j, (j < i)%nat -> nth_error (list_classes ds) j <> Some (label a).
Proof.
  rewrite get_unfold. intros H.
  apply bind_inr in H. destruct H as (a & Ha & H).
  apply bind_inr in H. destruct H as (t' & _ & H).
  apply bind_inr in H. destruct H as (i' & Hi & H).
  inversion H; subst. apply py_index_inr in Hi. destruct Hi as [Hn Hfirst].
  exists a. repeat split; try assumption.
  apply nth_error_Some. congruence.
Qed.

(** X11.  Retrieval raises IndexError exactly for the indices outside
    [-n, n), with [n] the length of the dataset. *)
Theorem get_index_error_iff (ds : UWDataset) (index : Z) :
  get cv ds index = inl IndexError
  <-> (index < - Z.of_nat (len ds) \/ Z.of_nat (len ds) <= index)%Z.
Proof.
  rewrite len_length, get_unfold. split.
  - intros H. apply py_getitem_index_error.
    destruct (py_getitem (annotations ds) index) as [e | a] eqn:Ha; cbn [bind] in H.
    + inversion H. reflexivity.
    + exfalso.
      destruct (decoded cv (train ds) (transforms ds) a) as [e | t] eqn:Hd;
        cbn [bind] in H.
      * apply decoded_error in Hd. destruct Hd; subst; discriminate.
      * destruct (py_index (list_classes ds) (label a)) as [e | i] eqn:Hi;
          cbn [bind] in H.
        -- apply py_index_error in Hi. subst. discriminate.
        -- discriminate.
  - intros Hr. apply py_getitem_index_error in Hr. rewrite Hr. reflexivity.
Qed.

(** X12.  In train mode retrieval returns an item exactly when the file
    of the record decodes and the label is a class; the item is then the
    transformed, channel-flipped image with the first position of the
    label in the class order. *)
Theorem train_get_returns_iff
  (ds : UWDataset) (index : Z) (a : annotation_t) (path : string)
  (t : tensor cv) (i : nat) :
  train ds = true ->
  py_getitem (annotations ds) index = inr a ->
  image_path a = Single path ->
  (get cv ds index = inr (t, i)
   <-> exists img,
         imread cv path = Some img
         /\ t = apply_transforms cv (transforms ds) (flip_channels cv img)
         /\ py_index (list_classes ds) (label a) = inr i).
Proof.
  intros Htrain Ha Hpath. rewrite get_unfold, Ha. cbn [bind].
  unfold decoded. rewrite Htrain, Hpath. unfold imread_rgb.
  destruct (imread cv path) as [img |]; cbn [bind ret raise].
  - destruct (py_index (list_classes ds) (label a)) as [e | i'] eqn:Hi; cbn [bind ret].
    + split; [discriminate |]. intros (img' & _ & _ & H). discriminate.
    + split.
      * intros H. inversion H; subst. exists img. repeat split.
      * intros (img' & Himg & Ht & Hi'). inversion Himg; subst. inversion Hi'; subst.
        reflexivity.
  - split; [discriminate |]. intros (img' & H & _). discriminate.
Qed.

(** X13.  In test mode, for a record with frame paths [paths]: retrieval
    returns an item exactly when there is at least one path, every path
    decodes and the label is a class, and the item is then the stack of
    the transformed images in the order of the paths; and retrieval
    raises the error of [torch.stack] exactly when the record has no
    path at all. *)
Theorem test_get_returns_iff
  (ds : UWDataset) (index : Z) (a : annotation_t) (paths : list string)
  (t : tensor cv) (i : nat) :
  train ds = false ->
  py_getitem (annotations ds) index = inr a ->
  image_path a = Frames paths ->
  (get cv ds index = inr (t, i)
   <-> paths <> []
       /\ exists imgs,
            Forall2 (fun p img => imread cv p = Some img) paths imgs
            /\ t = stack cv (map (fun img => apply_transforms cv (transforms ds)
                                               (flip_channels cv img)) imgs)
            /\ py_index (list_classes ds) (label a) = inr i)
  /\ (get cv ds index = inl RuntimeError <-> paths = []).
Proof.
  intros Htrain Ha Hpath. rewrite get_unfold, Ha. cbn [bind].
  unfold decoded. rewrite Htrain, Hpath.
  set (f := fun p : string => img <- imread_rgb cv p ;;
                              ret (apply_transforms cv (transforms ds) img)).
  assert (Hf : forall ps ts,
             Forall2 (fun p b => f p = inr b) ps ts
             <-> exists imgs,
                 Forall2 (fun p img => imread cv p = Some img) ps imgs
                 /\ ts = map (fun img => apply_transforms cv (transforms ds)
                                           (flip_channels cv img)) imgs).
  { induction ps as [| p ps IH]; intros ts.
    - split.
      + intros H. inversion H. exists []. split; [constructor | reflexivity].
      + intros (imgs & H & ->). inversion H. constructor.
    - split.
      + intros H. inversion H as [| ? b ? ts' Hb Hrest]; subst.
        apply IH in Hrest. destruct Hrest as (imgs & Himgs & ->).
        unfold f, imread_rgb in Hb. destruct (imread cv p) as [img |] eqn:Hp;
          simpl in Hb; [| discriminate].
        inversion Hb; subst. exists (img :: imgs). split; [| reflexivity].
        constructor; assumption.
      + intros (imgs & H & ->). inversion H as [| ? img ? imgs' Hp Hrest]; subst.
        simpl. constructor.
        * unfold f, imread_rgb. rewrite Hp. reflexivity.
        * apply IH. exists imgs'. split; [exact Hrest | reflexivity]. }
  destruct (mapM f paths) as [e | ts] eqn:Hm; cbn [bind].
  - pose proof (mapM_imread_error cv (transforms ds) paths e Hm) as He. subst e.
    split.
    + split; [discriminate |]. intros (_ & imgs & Himgs & _ & _).
      assert (Hok : mapM f paths = inr (map (fun img => apply_transforms cv (transforms ds)
                                                       (flip_channels cv img)) imgs)).
      { apply mapM_inr, Hf. exists imgs. split; [exact Himgs | reflexivity]. }
      congruence.
    + split; [discriminate |]. intros ->. simpl in Hm. discriminate.
  - apply mapM_inr in Hm. pose proof (Forall2_length Hm) as Hlen.
    apply Hf in Hm. destruct Hm as (imgs & Himgs & Hts).
    destruct ts as [| t0 ts]; cbn [torch_stack bind raise ret].
    + assert (paths = []) by (destruct paths; [reflexivity | discriminate]).
      subst paths. split.
      * split; [discriminate | intros [H _]; congruence].
      * split; reflexivity.
    + assert (Hne : paths <> []) by (intros ->; discriminate).
      destruct (py_index (list_classes ds) (label a)) as [e | i'] eqn:Hi; cbn [bind ret].
      * split.
        -- split; [discriminate |]. intros (_ & _ & _ & _ & H). discriminate.
        -- split; [| intros Hp; congruence].
           intros H. apply py_index_error in Hi. subst. discriminate.
      * split.
        -- split.
           ++ intros H. inversion H; subst. split; [exact Hne |].
              exists imgs. repeat split; [exact Himgs | now rewrite Hts].
           ++ intros (_ & imgs' & Himgs' & Ht & Hi'). inversion Hi'; subst.
              assert (imgs' = imgs).
              { clear - Himgs Himgs'. revert imgs' Himgs'.
                induction Himgs as [| p img ps imgs Hp _ IH]; intros imgs' H';
                  inversion H'; subst; [reflexivity |].
                f_equal; [congruence | now apply IH]. }
              subst imgs'. now rewrite Hts.
        -- split; [discriminate | intros Hp; congruence].
Qed.

End RetrievalFurther.

Lemma get_returns_first_class_index_witness :
  exists ds g',
    __init__ nat Sample.shuffle Sample.fs Sample.split_list Sample.classes true 0%nat
    = inr (ds, g')
    /\ get Sample.cv ds 4 = inr (["data/s1/01_0005.jpg"], 1%nat)
    /\ exists a,
         py_getitem (annotations ds) 4 = inr a
         /\ nth_error (list_classes ds) 1 = Some (label a)
         /\ (1 < List.length (list_classes ds))%nat
         /\ forall j, (j < 1)%nat -> nth_error (list_classes ds) j <> Some (label a).
Proof.
  eexists. eexists. split; [vm_compute; reflexivity |].
  split; [vm_compute; reflexivity |].
  eapply (get_returns_first_class_index Sample.cv _ 4%Z ["data/s1/01_0005.jpg"] 1%nat).
  vm_compute. reflexivity.
Defined.

Lemma train_get_returns_iff_witness :
  exists ds g' a,
    __init__ nat Sample.shuffle Sample.fs Sample.split_list Sample.classes true 0%nat
    = inr (ds, g')
    /\ train ds = true
    /\ py_getitem (annotations ds) 4 = inr a
    /\ image_path a = Single "data/s1/01_0005.jpg"
    /\ (get Sample.cv ds 4 = inr (["data/s1/01_0005.jpg"], 1%nat)
        <-> exists img,
              imread Sample.cv "data/s1/01_0005.jpg" = Some img
              /\ ["data/s1/01_0005.jpg"]
                 = apply_transforms Sample.cv (transforms ds)
                     (flip_channels Sample.cv img)
              /\ py_index (list_classes ds) (label a) = inr 1%nat).
Proof.
  eexists. eexists. eexists. split; [vm_compute; reflexivity |].
  split; [reflexivity |].
  split; [vm_compute; reflexivity |].
  split; [reflexivity |].
  apply (train_get_returns_iff Sample.cv _ 4%Z _ "data/s1/01_0005.jpg"
           ["data/s1/01_0005.jpg"] 1%nat); reflexivity.
Defined.

Lemma test_get_returns_iff_witness :
  (exists ds g' a,
      __init__ nat Sample.shuffle Sample.fs ["data/s3"] Sample.classes false 0%nat
      = inr (ds, g')
      /\ train ds = false
      /\ py_getitem (annotations ds) 0 = inr a
      /\ image_path a = Frames []
      /\ get Sample.cv ds 0 = inl RuntimeError)
  /\ (exists ds g' a,
         __init__ nat Sample.shuffle Sample.fs Sample.split_list Sample.classes
           false 0%nat = inr (ds, g')
         /\ train ds = false
         /\ py_getitem (annotations ds) 0 = inr a
         /\ image_path a = Frames ["data/s1/01_0001_a.jpg"; "data/s1/01_0001_b.jpg"]
         /\ get Sample.cv ds 0
            = inr (["data/s1/01_0001_a.jpg"; "data/s1/01_0001_b.jpg"], 0%nat)).
Proof.
  split.
  - eexists. eexists. eexists. split; [vm_compute; reflexivity |].
    split; [reflexivity |].
    split; [vm_compute; reflexivity |].
    split; [reflexivity |].
    lazymatch goal with
    | |- get _ ?ds _ = _ =>
        apply (proj2 (test_get_returns_iff Sample.cv ds 0%Z
                        {| image_path := Frames []; label := "A";
                           one_hot := [1%Z; 0%Z] |}
                        [] [] 0%nat eq_refl eq_refl eq_refl))
    end.
    reflexivity.
  - eexists. eexists. eexists. split; [vm_compute; reflexivity |].
    split; [reflexivity |].
    split; [vm_compute; reflexivity |].
    split; [reflexivity |].
    lazymatch goal with
    | |- get _ ?ds _ = _ =>
        apply (proj1 (test_get_returns_iff Sample.cv ds 0%Z
                        {| image_path :=
                             Frames ["data/s1/01_0001_a.jpg"; "data/s1/01_0001_b.jpg"];
                           label := "A"; one_hot := [1%Z; 0%Z] |}
                        ["data/s1/01_0001_a.jpg"; "data/s1/01_0001_b.jpg"]
                        ["data/s1/01_0001_a.jpg"; "data/s1/01_0001_b.jpg"] 0%nat
                        eq_refl eq_refl eq_refl))
    end.
    split; [discriminate |].
    exists ["data/s1/01_0001_a.jpg"; "data/s1/01_0001_b.jpg"].
    split; [repeat constructor |]. split; reflexivity.
Defined.

(** * The outcomes of construction *)

Lemma list_sum_pos_in {A : Type} (f : A -> nat) (l : list A) :
  (0 < list_sum (map f l))%nat <-> exists a, In a l /\ (0 < f a)%nat.
Proof.
  induction l as [| a l IH]; simpl.
  - split; [lia | intros (a & [] & _)].
  - split.
    + intros H. destruct (Nat.eq_dec (f a) 0) as [Hz | Hnz].
      * destruct (proj1 IH) as (b & Hb & Hfb); [lia |].
        exists b. split; [now right | exact Hfb].
      * exists a. split; [now left | lia].
    + intros (b & [-> | Hb] & Hfb); [lia |].
      assert (0 < list_sum (map f l))%nat by (apply IH; exists b; auto). lia.
Qed.

Lemma labelled_rows_length (fs : FileSystem) (classes split_list : list string) :
  List.length (labelled_rows fs classes split_list) = total_rows fs split_list.
Proof.
  unfold labelled_rows, total_rows, split_rows.
  rewrite length_flat_map_sum. f_equal. apply map_ext. intros split. apply length_map.
Qed.

Lemma labelled_rows_in (fs : FileSystem) (classes split_list : list string)
  (p : string * annot_dict) :
  In p (labelled_rows fs classes split_list)
  <-> exists split r, In split split_list /\ In r (split_rows fs split)
                      /\ p = (annotation r, row_dict split classes r).
Proof.
  unfold labelled_rows. rewrite in_flat_map. split.
  - intros (split & Hs & Hp). apply in_map_iff in Hp. destruct Hp as (r & <- & Hr).
    exists split, r. auto.
  - intros (split & r & Hs & Hr & ->). exists split. split; [exact Hs |].
    apply in_map_iff. exists r. auto.
Qed.

Lemma file_count_pos (fs : FileSystem) (d : annot_dict) :
  (0 < file_count fs d)%nat <-> exists path, In path (glob fs (image_root d ++ "*")).
Proof.
  unfold file_count. destruct (glob fs (image_root d ++ "*")) as [| p ps]; simpl.
  - split; [lia | intros (path & [])].
  - split; [intros _; exists p; now left | lia].
Qed.

Lemma group_member_iff (fs : FileSystem) (classes split_list : list string)
  (annot : annot_t) (lbl : string) (d : annot_dict) :
  read_splits fs classes split_list [] = inr annot ->
  (exists l, In (lbl, l) annot /\ In d l)
  <-> In (lbl, d) (labelled_rows fs classes split_list).
Proof.
  intros Hread.
  destruct (read_splits_invariants fs classes _ _ _ Hread) as (_ & Hnd & _ & _).
  specialize (Hnd (NoDup_nil _)).
  destruct (read_splits_groups fs classes _ _ _ Hread) as (Hg & _).
  specialize (Hg lbl). simpl in Hg. unfold rows_of_label in Hg. split.
  - intros (l & Hl & Hd). rewrite <- (group_of_in _ _ _ Hnd Hl), Hg in Hd.
    apply in_map_iff in Hd. destruct Hd as ([k d'] & Heq & Hp). simpl in Heq. subst d'.
    apply filter_In in Hp. destruct Hp as [Hp Hk]. simpl in Hk.
    apply String.eqb_eq in Hk. now subst k.
  - intros Hp. exists (group_of annot lbl).
    assert (Hd : In d (group_of annot lbl)).
    { rewrite Hg. apply in_map_iff. exists (lbl, d). split; [reflexivity |].
      apply filter_In. split; [exact Hp | apply String.eqb_refl]. }
    split; [| exact Hd].
    apply group_of_nonempty_in. intros Hnil. rewrite Hnil in Hd. contradiction.
Qed.

Lemma entries_zero_nil (annot : annot_t) :
  groups_nonempty annot -> entries annot = 0%nat -> annot = [].
Proof.
  unfold groups_nonempty, entries. destruct annot as [| [k l] rest]; [reflexivity |].
  intros Hne H. inversion Hne as [| ? ? Hl _]; subst. simpl in *.
  destruct l; [congruence | simpl in H; lia].
Qed.

Section Outcomes.

Variable rng : Type.
Variable shuffle : rng -> list annot_dict -> list annot_dict * rng.
Hypothesis shuffle_perm : forall g l, Permutation l (fst (shuffle g l)).

Lemma expand_groups_nonempty_iff
  (fs : FileSystem) (split_list classes : list string) (annot : annot_t) (g : rng) :
  read_splits fs classes split_list [] = inr annot ->
  expand_groups fs (max_count annot) (fst (shuffle_all rng shuffle annot g)) <> []
  <-> (0 < total_files fs classes split_list)%nat.
Proof.
  intros Hread.
  pose proof (shuffle_all_same_groups rng shuffle shuffle_perm annot g) as Hsame.
  unfold total_files. rewrite list_sum_pos_in. split.
  - intros Hne.
    destruct (expand_groups fs (max_count annot) (fst (shuffle_all rng shuffle annot g)))
      as [| a anns] eqn:He; [congruence |].
    assert (Ha : In a (expand_groups fs (max_count annot)
                         (fst (shuffle_all rng shuffle annot g))))
      by (rewrite He; now left).
    unfold expand_groups in Ha. apply in_flat_map in Ha.
    destruct Ha as ([lbl l'] & Hl' & Ha). simpl in Ha.
    apply in_flat_map in Ha. destruct Ha as (d & Hd & Ha).
    apply in_emitted_entries in Hd.
    destruct (same_groups_in _ _ _ _ Hsame Hl') as (l & Hl & Hp).
    assert (Hdl : In d l) by (eapply Permutation_in; [symmetry; exact Hp | exact Hd]).
    exists (lbl, d). split.
    + apply (group_member_iff fs classes split_list annot lbl d Hread).
      exists l. auto.
    + simpl. rewrite <- train_records_length with (lbl := lbl).
      destruct (train_records fs lbl d); [contradiction | simpl; lia].
  - intros ([lbl d] & Hrow & Hpos). simpl in Hpos.
    apply (group_member_iff fs classes split_list annot lbl d Hread) in Hrow.
    destruct Hrow as (l & Hl & Hd).
    destruct (same_groups_in_fwd _ _ _ _ Hsame Hl) as (l' & Hl' & Hp).
    apply file_count_pos in Hpos. destruct Hpos as (path & Hpath).
    assert (Hin : In {| image_path := Single path; label := lbl;
                        one_hot := root_one_hot d |}
                     (expand_groups fs (max_count annot)
                        (fst (shuffle_all rng shuffle annot g)))).
    { unfold expand_groups. apply in_flat_map. exists (lbl, l'). split; [exact Hl' |].
      simpl. apply in_flat_map. exists d. split.
      - apply in_emitted_entries_all.
        + rewrite <- (same_groups_max_count _ _ Hsame). eapply max_count_upper, Hl'.
        + eapply Permutation_in; [exact Hp | exact Hd].
      - unfold train_records. apply in_map_iff. exists path. split; [reflexivity |].
        unfold same_annot. eapply Permutation_in; [apply sorted_Permutation | exact Hpath]. }
    intros Hnil. rewrite Hnil in Hin. contradiction.
Qed.


(** X15.  The division and the modulo by the group size (lines 71-72)
    never divide by zero: whatever the file system holds, in both modes,
    construction does not end in ZeroDivisionError, because no group of
    the grouping is ever empty. *)
Theorem construction_never_divides_by_zero
  (fs : FileSystem) (split_list classes : list string) (is_train : bool) (g : rng) :
  __init__ rng shuffle fs split_list classes is_train g <> inl ZeroDivisionError.
Proof.
  unfold __init__. intros Hinit.
  destruct (read_splits fs classes split_list []) as [e0 | annot] eqn:Hread;
    cbn [bind] in Hinit.
  - inversion Hinit; subst.
    destruct (Forall_Exists_dec (one_annotation_file fs)
                (fun split => Nat.eq_dec
                                (List.length (glob fs (join split "*.ods"))) 1)
                split_list) as [Hall | Hex].
    + destruct (read_splits_succeeds fs classes split_list [] Hall) as (annot & Hr).
      congruence.
    + rewrite (read_splits_fails fs classes split_list [] Hex) in Hread. congruence.
  - destruct (read_splits_invariants fs classes _ _ _ Hread) as (_ & _ & Hne & _).
    specialize (Hne (Forall_nil _)).
    destruct (build_annotations_cases rng shuffle shuffle_perm fs is_train annot g Hne)
      as [Hb | [built Hb]]; rewrite Hb in Hinit; cbn [bind] in Hinit.
    + discriminate.
    + destruct (fst built) as [| a anns]; cbn [frames_per_annotation bind raise] in Hinit.
      * discriminate.
      * destruct (image_path a); discriminate.
Qed.

(** X16.  A test-mode dataset is returned only for well-formed input, and
    reflects it: when construction returns, every split holds exactly one
    annotation file, there is at least one row, the dataset has as many
    records as there are rows whether or not the rows have files, and the
    random generator is as it was. *)
Theorem test_dataset_reflects_input
  (fs : FileSystem) (split_list classes : list string) (g g' : rng) (ds : UWDataset) :
  __init__ rng shuffle fs split_list classes false g = inr (ds, g') ->
  Forall (fun split => List.length (glob fs (join split "*.ods")) = 1%nat) split_list
  /\ (0 < total_rows fs split_list)%nat
  /\ len ds = total_rows fs split_list
  /\ g' = g.
Proof.
  intros Hinit.
  destruct (init_test_inr rng shuffle _ _ _ _ _ _ Hinit)
    as (annot & Hread & Hds & Hg & Hnn).
  destruct (read_splits_invariants fs classes _ _ _ Hread) as (Hone & _ & _ & Hen).
  simpl in Hen.
  assert (Hlen : len ds = total_rows fs split_list).
  { rewrite Hds. unfold len. simpl. now rewrite test_annotations_length. }
  repeat split; try assumption.
  rewrite <- Hlen, len_length. destruct (annotations ds); [congruence | simpl; lia].
Qed.

(** X17.  A train-mode dataset is returned only when some row has a
    matching file: when construction returns, every split holds exactly
    one annotation file, there is at least one row and at least one file
    matching the root of a row.  Rows without any file never make a
    train-mode dataset. *)
Theorem train_dataset_needs_files
  (fs : FileSystem) (split_list classes : list string) (g g' : rng) (ds : UWDataset) :
  __init__ rng shuffle fs split_list classes true g = inr (ds, g') ->
  Forall (fun split => List.length (glob fs (join split "*.ods")) = 1%nat) split_list
  /\ (0 < total_rows fs split_list)%nat
  /\ (0 < total_files fs classes split_list)%nat
  /\ exists split r path,
       In split split_list /\ In r (split_rows fs split)
       /\ In path (glob fs (image_root (row_dict split classes r) ++ "*")).
Proof.
  intros Hinit.
  destruct (init_train_inr rng shuffle shuffle_perm _ _ _ _ _ _ Hinit)
    as (annot & Hread & _ & Hds & _ & Hnn).
  destruct (read_splits_invariants fs classes _ _ _ Hread) as (Hone & _ & _ & _).
  assert (Hfiles : (0 < total_files fs classes split_list)%nat).
  { apply (expand_groups_nonempty_iff fs split_list classes annot g Hread).
    rewrite Hds in Hnn. exact Hnn. }
  pose proof Hfiles as Hex. unfold total_files in Hex.
  apply list_sum_pos_in in Hex. destruct Hex as (p & Hp & Hpos).
  pose proof (labelled_rows_length fs classes split_list) as Hlen.
  apply labelled_rows_in in Hp as Hrow. destruct Hrow as (split & r & Hs & Hr & ->).
  simpl in Hpos. apply file_count_pos in Hpos. destruct Hpos as (path & Hpath).
  repeat split; try assumption.
  - rewrite <- Hlen. destruct (labelled_rows fs classes split_list);
      [contradiction | simpl; lia].
  - exists split, r, path. auto.
Qed.

End Outcomes.


Lemma construction_never_divides_by_zero_witness :
  __init__ nat Sample.shuffle Sample.fs ["data/s4"] Sample.classes true 0%nat
  <> inl ZeroDivisionError.
Proof.
  exact (construction_never_divides_by_zero nat Sample.shuffle sample_shuffle_perm
           Sample.fs ["data/s4"] Sample.classes true 0%nat).
Defined.

Lemma test_dataset_reflects_input_witness :
  exists ds g',
    __init__ nat Sample.shuffle Sample.fs ["data/s1"; "data/s3"] Sample.classes
      false 0%nat = inr (ds, g')
    /\ len ds = 6%nat
    /\ Forall (fun split => List.length (glob Sample.fs (join split "*.ods")) = 1%nat)
              ["data/s1"; "data/s3"]
    /\ (0 < total_rows Sample.fs ["data/s1"; "data/s3"])%nat
    /\ len ds = total_rows Sample.fs ["data/s1"; "data/s3"]
    /\ g' = 0%nat.
Proof.
  eexists. eexists. split; [vm_compute; reflexivity |].
  split; [reflexivity |].
  eapply (test_dataset_reflects_input nat Sample.shuffle
            Sample.fs ["data/s1"; "data/s3"] Sample.classes 0%nat).
  vm_compute. reflexivity.
Defined.

Lemma train_dataset_needs_files_witness :
  exists ds g',
    __init__ nat Sample.shuffle Sample.fs ["data/s1"; "data/s3"] Sample.classes
      true 0%nat = inr (ds, g')
    /\ Forall (fun split => List.length (glob Sample.fs (join split "*.ods")) = 1%nat)
              ["data/s1"; "data/s3"]
    /\ (0 < total_rows Sample.fs ["data/s1"; "data/s3"])%nat
    /\ (0 < total_files Sample.fs Sample.classes ["data/s1"; "data/s3"])%nat
    /\ exists split r path,
         In split ["data/s1"; "data/s3"] /\ In r (split_rows Sample.fs split)
         /\ In path (glob Sample.fs
                       (image_root (row_dict split Sample.classes r) ++ "*")).
Proof.
  eexists. eexists. split; [vm_compute; reflexivity |].
  eapply (train_dataset_needs_files nat Sample.shuffle sample_shuffle_perm
            Sample.fs ["data/s1"; "data/s3"] Sample.classes 0%nat).
  vm_compute. reflexivity.
Defined.

(** * Directory listings in any order *)

Lemma string_compare_trans (a b c : string) :
  String.compare a b <> Gt -> String.compare b c <> Gt -> String.compare a c <> Gt.
Proof.
  revert b c. induction a as [| x a IH]; intros [| y b] [| z c]; simpl;
    try congruence.
  unfold Ascii.compare.
  destruct (N.compare_spec (N_of_ascii x) (N_of_ascii y)) as [Hxy | Hxy | Hxy];
    destruct (N.compare_spec (N_of_ascii y) (N_of_ascii z)) as [Hyz | Hyz | Hyz];
    destruct (N.compare_spec (N_of_ascii x) (N_of_ascii z)) as [Hxz | Hxz | Hxz];
    try congruence; try lia.
  apply IH.
Qed.

Lemma string_leb_trans (a b c : string) :
  String.leb a b = true -> String.leb b c = true -> String.leb a c = true.
Proof.
  unfold String.leb. intros Hab Hbc.
  pose proof (string_compare_trans a b c) as H.
  destruct (String.compare a b); destruct (String.compare b c);
    destruct (String.compare a c); try discriminate; try reflexivity;
    exfalso; apply H; congruence.
Qed.

Lemma sorted_unique (l1 l2 : list string) :
  Sorted (fun a b => String.leb a b = true) l1 ->
  Sorted (fun a b => String.leb a b = true) l2 ->
  Permutation l1 l2 -> l1 = l2.
Proof.
  intros H1 H2.
  apply Sorted_StronglySorted in H1; [| intros a b c; apply string_leb_trans].
  apply Sorted_StronglySorted in H2; [| intros a b c; apply string_leb_trans].
  revert l2 H2. induction H1 as [| a l1 Hs1 IH Ha]; intros l2 H2 Hp.
  - apply Permutation_nil in Hp. now subst.
  - destruct H2 as [| b l2 Hs2 Hb].
    + apply Permutation_sym, Permutation_nil in Hp. discriminate.
    + assert (Hab : a = b).
      { assert (Hina : In a (b :: l2)) by (eapply Permutation_in; [exact Hp | now left]).
        assert (Hinb : In b (a :: l1))
          by (eapply Permutation_in; [symmetry; exact Hp | now left]).
        destruct Hina as [Heq | Hina]; [symmetry; exact Heq |].
        destruct Hinb as [Heq | Hinb]; [exact Heq |].
        rewrite Forall_forall in Ha, Hb.
        apply String.leb_antisym; [apply Ha, Hinb | apply Hb, Hina]. }
      subst b. f_equal. apply IH; [exact Hs2 |].
      eapply Permutation_cons_inv, Hp.
Qed.

Lemma sorted_of_permutation (l1 l2 : list string) :
  Permutation l1 l2 -> sorted l1 = sorted l2.
Proof.
  intros Hp. apply sorted_unique; try apply sorted_Sorted.
  transitivity l1; [symmetry; apply sorted_Permutation |].
  transitivity l2; [exact Hp | apply sorted_Permutation].
Qed.

Section ListingOrder.

Variables fs1 fs2 : FileSystem.
Hypothesis same_files : forall pattern, Permutation (glob fs1 pattern) (glob fs2 pattern).
Hypothesis same_tables : forall f, read_csv fs1 f = read_csv fs2 f.

Lemma annotation_file_listing (split : string) :
  annotation_file fs1 split = annotation_file fs2 split.
Proof.
  unfold annotation_file. pose proof (same_files (join split "*.ods")) as Hp.
  rewrite (Permutation_length Hp).
  destruct (glob fs1 (join split "*.ods")) as [| f1 [| f1' r1]].
  - apply Permutation_nil in Hp. now rewrite Hp.
  - apply Permutation_length_1_inv in Hp. now rewrite Hp.
  - pose proof (Permutation_length Hp) as Hlen.
    destruct (glob fs2 (join split "*.ods")) as [| f2 [| f2' r2]];
      simpl in Hlen; try discriminate. reflexivity.
Qed.

Lemma read_splits_listing (classes split_list : list string) (annot : annot_t) :
  read_splits fs1 classes split_list annot = read_splits fs2 classes split_list annot.
Proof.
  revert annot. induction split_list as [| split rest IH]; intros annot; simpl.
  - reflexivity.
  - rewrite annotation_file_listing.
    destruct (annotation_file fs2 split) as [e | f]; simpl; [reflexivity |].
    now rewrite same_tables, IH.
Qed.

Lemma same_annot_listing (d : annot_dict) : same_annot fs1 d = same_annot fs2 d.
Proof. unfold same_annot. apply sorted_of_permutation, same_files. Qed.

Lemma oversample_group_listing (m : nat) (lbl : string) (l : list annot_dict) :
  oversample_group fs1 m lbl l = oversample_group fs2 m lbl l.
Proof.
  unfold oversample_group.
  assert (H : forall es, flat_map (train_records fs1 lbl) es
                         = flat_map (train_records fs2 lbl) es).
  { intros es. apply flat_map_ext. intros d. unfold train_records.
    now rewrite same_annot_listing. }
  destruct (py_floordiv m (List.length l)) as [e | rep]; simpl; [reflexivity |].
  destruct (py_mod m (List.length l)) as [e | rem]; simpl; [reflexivity |].
  unfold ret. f_equal. rewrite (H (firstn rem l)). f_equal.
  apply flat_map_ext. intros k. apply H.
Qed.

(** X18.  The dataset does not depend on the order in which the file
    system lists a directory: two file systems that hold the same tables
    and list the same files for every pattern, in whatever order, give
    the same construction result, in both modes. *)
Theorem construction_independent_of_listing_order
  (rng : Type) (shuffle : rng -> list annot_dict -> list annot_dict * rng)
  (split_list classes : list string) (is_train : bool) (g : rng) :
  __init__ rng shuffle fs1 split_list classes is_train g
  = __init__ rng shuffle fs2 split_list classes is_train g.
Proof.
  unfold __init__. rewrite read_splits_listing.
  destruct (read_splits fs2 classes split_list []) as [e | annot]; simpl; [reflexivity |].
  assert (Hb : build_annotations rng shuffle fs1 is_train annot g
               = build_annotations rng shuffle fs2 is_train annot g).
  { unfold build_annotations. destruct is_train.
    - destruct (py_max _) as [e | m]; simpl; [reflexivity |].
      revert g. induction annot as [| [lbl l] rest IH]; intros g0; simpl.
      + reflexivity.
      + destruct (shuffle g0 l) as [s g1]. rewrite oversample_group_listing.
        destruct (oversample_group fs2 m lbl s); simpl; [reflexivity |].
        now rewrite IH.
    - f_equal. f_equal. unfold test_annotations. apply flat_map_ext. intros kv.
      apply map_ext. intros d. unfold test_record. now rewrite same_annot_listing. }
  now rewrite Hb.
Qed.

End ListingOrder.

Lemma construction_independent_of_listing_order_witness :
  __init__ nat Sample.shuffle Sample.fs Sample.split_list Sample.classes true 0%nat
  = __init__ nat Sample.shuffle sample_fs_reversed Sample.split_list Sample.classes
      true 0%nat.
Proof.
  apply (construction_independent_of_listing_order Sample.fs sample_fs_reversed).
  - intros pattern. apply Permutation_rev.
  - intros f. reflexivity.
Defined.

(** * The summary and the script entry *)

Lemma count_label_cons (lbl : string) (a : annotation_t) (anns : list annotation_t) :
  count_label lbl (a :: anns)
  = ((if String.eqb (label a) lbl then 1 else 0) + count_label lbl anns)%nat.
Proof. unfold count_label. simpl. destruct (String.eqb (label a) lbl); reflexivity. Qed.

Lemma sum_indicator (x : string) (classes : list string) :
  NoDup classes ->
  list_sum (map (fun c => if String.eqb x c then 1 else 0)%nat classes)
  = if existsb (String.eqb x) classes then 1%nat else 0%nat.
Proof.
  induction classes as [| c r IH]; simpl; intros Hnd; [reflexivity |].
  inversion Hnd as [| ? ? Hnotin Hr]; subst. rewrite (IH Hr).
  destruct (String.eqb_spec x c) as [Heq | Hne]; simpl; [| reflexivity].
  subst c. destruct (existsb (String.eqb x) r) eqn:He; [| reflexivity].
  exfalso. apply Hnotin. apply existsb_exists in He. destruct He as (y & Hy & Hxy).
  apply String.eqb_eq in Hxy. now subst y.
Qed.

Lemma class_counts_sum (anns : list annotation_t) (classes : list string) :
  NoDup classes ->
  list_sum (map (fun lbl => count_label lbl anns) classes)
  = List.length (filter (fun a => existsb (String.eqb (label a)) classes) anns).
Proof.
  intros Hnd. induction anns as [| a anns IH]; simpl.
  - induction classes; simpl; auto. inversion Hnd; auto.
  - rewrite (map_ext _ (fun lbl => ((if String.eqb (label a) lbl then 1 else 0)
                                    + count_label lbl anns)%nat))
      by (intros; apply count_label_cons).
    assert (Hsplit : forall (f h : string -> nat) l,
               list_sum (map (fun c => (f c + h c)%nat) l)
               = (list_sum (map f l) + list_sum (map h l))%nat).
    { intros f h l. induction l as [| c l IHl]; simpl; [reflexivity |].
      rewrite IHl. lia. }
    rewrite Hsplit, IH, (sum_indicator _ _ Hnd).
    destruct (existsb (String.eqb (label a)) classes); reflexivity.
Qed.

(** X19.  With distinct class names, the per-class counts of the summary
    add up to the number of records whose label is a class: the total
    never exceeds the length of the dataset and reaches it exactly when
    no record carries a label outside the class order. *)
Theorem class_counts_cover_known_labels (ds : UWDataset) :
  NoDup (list_classes ds) ->
  list_sum (map snd (class_counts ds))
  = List.length (filter (fun a => existsb (String.eqb (label a)) (list_classes ds))
                        (annotations ds))
  /\ (list_sum (map snd (class_counts ds)) <= len ds)%nat
  /\ (list_sum (map snd (class_counts ds)) = len ds
      <-> Forall (fun a => In (label a) (list_classes ds)) (annotations ds)).
Proof.
  intros Hnd. unfold class_counts. rewrite map_map. simpl.
  rewrite (class_counts_sum _ _ Hnd), len_length.
  set (p := fun a => existsb (String.eqb (label a)) (list_classes ds)).
  assert (Hle : forall l : list annotation_t, (List.length (filter p l) <= List.length l)%nat).
  { induction l as [| a l IH]; simpl; [lia |]. destruct (p a); simpl; lia. }
  split; [reflexivity |]. split; [apply Hle |].
  induction (annotations ds) as [| a l IH]; simpl.
  - split; [constructor | reflexivity].
  - destruct (p a) eqn:Hp; simpl.
    + split.
      * intros H. constructor.
        -- unfold p in Hp. apply existsb_exists in Hp. destruct Hp as (c & Hc & Heq).
           apply String.eqb_eq in Heq. now rewrite Heq.
        -- apply IH. lia.
      * intros H. inversion H; subst. f_equal. now apply IH.
    + split.
      * intros H. specialize (Hle l). lia.
      * intros H. inversion H as [| ? ? Hin _]; subst. exfalso.
        assert (p a = true); [| congruence].
        unfold p. apply existsb_exists. exists (label a).
        split; [exact Hin | apply String.eqb_refl].
Qed.

Lemma class_counts_cover_known_labels_witness :
  exists ds g',
    __init__ nat Sample.shuffle Sample.fs ["data/s4"] Sample.classes true 0%nat
    = inr (ds, g')
    /\ class_counts ds = [("A", 0%nat); ("B", 2%nat)]
    /\ len ds = 4%nat
    /\ list_sum (map snd (class_counts ds))
       = List.length (filter (fun a => existsb (String.eqb (label a)) (list_classes ds))
                             (annotations ds))
    /\ (list_sum (map snd (class_counts ds)) <= len ds)%nat
    /\ (list_sum (map snd (class_counts ds)) = len ds
        <-> Forall (fun a => In (label a) (list_classes ds)) (annotations ds)).
Proof.
  eexists. eexists. split; [vm_compute; reflexivity |].
  split; [reflexivity |]. split; [reflexivity |].
  apply class_counts_cover_known_labels.
  simpl. repeat constructor; simpl; intuition discriminate.
Defined.

(** X20.  When the script entry returns a dataset, the configuration was
    loaded, the directory [<excels_path>/test_images] holds exactly one
    annotation file with at least one row, and the dataset is a test-mode
    dataset with the configured species as class order and one record per
    row of that file; the random generator is as it was. *)
Theorem main_returns_test_dataset
  (rng : Type) (shuffle : rng -> list annot_dict -> list annot_dict * rng)
  (load_yml : string -> result Config) (fs : FileSystem)
  (g g' : rng) (ds : UWDataset) :
  main rng shuffle load_yml fs g = inr (ds, g') ->
  exists cfg,
    load_yml "../config.yml" = inr cfg
    /\ List.length (glob fs (join (join (excels_path cfg) "test_images") "*.ods"))
       = 1%nat
    /\ train ds = false
    /\ transforms ds = TestResize
    /\ list_classes ds = species cfg
    /\ len ds = List.length (split_rows fs (join (excels_path cfg) "test_images"))
    /\ (0 < len ds)%nat
    /\ g' = g.
Proof.
  unfold main. intros Hmain.
  apply bind_inr in Hmain. destruct Hmain as (cfg & Hcfg & Hinit).
  exists cfg. split; [exact Hcfg |].
  destruct (init_test_inr rng shuffle _ _ _ _ _ _ Hinit)
    as (annot & Hread & Hds & Hg & Hnn).
  destruct (read_splits_invariants fs (species cfg) _ _ _ Hread) as (Hone & _ & _ & Hen).
  inversion Hone as [| ? ? Hone1 _]; subst.
  assert (Hlen : len {| annotations := test_annotations fs annot;
                        transforms := TestResize; train := false;
                        list_classes := species cfg |}
                 = List.length (split_rows fs (join (excels_path cfg) "test_images"))).
  { unfold len. simpl. rewrite test_annotations_length, Hen.
    unfold total_rows, split_rows. simpl. lia. }
  repeat split; try assumption; try reflexivity.
  rewrite len_length. simpl in *.
  destruct (test_annotations fs annot); [congruence | simpl; lia].
Qed.

Lemma main_returns_test_dataset_witness :
  exists ds g',
    main nat Sample.shuffle sample_load_yml sample_fs_script 0%nat = inr (ds, g')
    /\ len ds = 2%nat
    /\ exists cfg,
         sample_load_yml "../config.yml" = inr cfg
         /\ List.length (glob sample_fs_script
                           (join (join (excels_path cfg) "test_images") "*.ods"))
            = 1%nat
         /\ train ds = false
         /\ transforms ds = TestResize
         /\ list_classes ds = species cfg
         /\ len ds
            = List.length (split_rows sample_fs_script
                             (join (excels_path cfg) "test_images"))
         /\ (0 < len ds)%nat
         /\ g' = 0%nat.
Proof.
  eexists. eexists. split; [vm_compute; reflexivity |].
  split; [reflexivity |].
  eapply (main_returns_test_dataset nat Sample.shuffle sample_load_yml
            sample_fs_script 0%nat).
  vm_compute. reflexivity.
Defined.

Lemma string_append_nil_r (a : string) : (a ++ "")%string = a.
Proof. induction a as [| c a IH]; simpl; [reflexivity | now rewrite IH]. Qed.

Lemma endswith_sep_append (a b : string) :
  b <> EmptyString -> endswith_sep (a ++ b) = endswith_sep b.
Proof.
  intros Hb. induction a as [| x a IH]; simpl; [reflexivity |].
  destruct (a ++ b)%string as [| y r] eqn:Hab.
  - destruct a; simpl in Hab; [congruence | discriminate].
  - exact IH.
Qed.

Lemma last_segment_spec (s acc : string) :
  all_chars not_sep acc = true ->
  all_chars not_sep (last_segment s acc) = true
  /\ exists dir,
       (acc ++ s)%string = (dir ++ last_segment s acc)%string
       /\ (dir = EmptyString \/ endswith_sep dir = true).
Proof.
  revert acc. induction s as [| c r IH]; intros acc Hacc; simpl.
  - split; [exact Hacc |]. exists EmptyString.
    split; [apply string_append_nil_r | now left].
  - destruct (Ascii.eqb_spec c "/"%char) as [Hc | Hc].
    + subst c. destruct (IH EmptyString eq_refl) as (Hall & dir' & Heq & Hdir).
      split; [exact Hall |]. simpl in Heq.
      exists (acc ++ String "/"%char dir')%string. split.
      * rewrite string_append_assoc. simpl. now rewrite <- Heq.
      * right. rewrite endswith_sep_append by discriminate.
        destruct Hdir as [-> | Hdir]; [reflexivity |].
        simpl. destruct dir'; [discriminate | exact Hdir].
    + assert (Hacc' : all_chars not_sep (acc ++ String c EmptyString) = true).
      { rewrite all_chars_append, Hacc. simpl. unfold not_sep.
        destruct (Ascii.eqb_spec c "/"%char); [contradiction | reflexivity]. }
      destruct (IH _ Hacc') as (Hall & dir & Heq & Hdir).
      split; [exact Hall |]. exists dir. split; [| exact Hdir].
      rewrite <- Heq, string_append_assoc. reflexivity.
Qed.

(** X21.  The name the summary prints for a split is the last component
    of its path: it contains no separator, and the path is that name
    preceded by nothing or by a directory part ending in a separator (so
    a path with a trailing separator is printed as the empty name). *)
Theorem split_names_are_last_components (split_list : list string) :
  Forall2 (fun split name =>
             all_chars not_sep name = true
             /\ exists dir,
                  split = (dir ++ name)%string
                  /\ (dir = EmptyString \/ endswith_sep dir = true))
          split_list (split_names split_list).
Proof.
  unfold split_names. induction split_list as [| x l IH]; simpl; constructor.
  - apply (last_segment_spec x EmptyString). reflexivity.
  - exact IH.
Qed.
